(** * Dialectica: the two Streamlit chat scripts, embedded and verified

    [sl_llamachat.py] and [sl_llm_philosopher.py] are two near-duplicate
    scripts.  Each one builds a prompt from a tone and a question, sends it to
    a local model through [ollama.chat], times the call, and appends the
    result to a session-scoped history list that is rendered newest first.

    [sl_llm_philosopher.py] is not valid Python: the list on its line 67 has
    a string literal that is never closed, and its [main] uses the keyword
    [class] as a variable.  Its functions whose text is well formed are
    embedded one by one; its [main] has no meaning as a program and is not
    embedded, and what running the file does is given by a model of the two
    checks of the compiler that the file fails.

    The embedding is shallow.  Python values that change shape at run time
    (the success dictionary and the failure tuple of [generate_response]) are
    an inductive type [value]; the effects of the scripts (clock readings,
    backend calls, the log file, Streamlit output, the session state) are
    threaded through a state-and-exception monad [M] over a [world].

    Strings are Rocq [string]s whose characters are read as code points below
    256.  Durations are rationals: [time.time()] returns a binary64 float and
    float subtraction is monotone, so the sign of a difference is the sign of
    the exact difference. *)

From Stdlib Require Import String Ascii List Bool Arith ZArith QArith Lia Lqa.
Import ListNotations.

Set Warnings "-register-all".
Local Close Scope Q_scope.
Local Open Scope bool_scope.
Local Open Scope string_scope.
Local Open Scope list_scope.

(** ** Python values *)

(** The values the scripts pass around: [str], [int], [float], tuples and
    dictionaries.  A dictionary keeps its keys in insertion order. *)
Inductive value : Type :=
| VStr (s : string)
| VInt (z : Z)
| VFloat (q : Q)
| VTuple (items : list value)
| VDict (entries : list (string * value)).

(** The exceptions that occur.  Every constructor is a subclass of Python's
    [Exception]; [BackendError] stands for whatever [ollama.chat] raises
    (a connection error, a response error for an unknown model, ...). *)
Inductive pyexn : Type :=
| TypeError (msg : string)
| KeyError (key : string)
| IndexError (msg : string)
| FileNotFoundError (path : string)
| AttributeError (msg : string)
| BackendError (msg : string).

(** [str(e)]: the message, except for [KeyError], which shows the repr of the
    missing key. *)
Definition exn_str (e : pyexn) : string :=
  match e with
  | TypeError m => m
  | KeyError k => "'" ++ k ++ "'"
  | IndexError m => m
  | FileNotFoundError p => "[Errno 2] No such file or directory: '" ++ p ++ "'"
  | AttributeError m => m
  | BackendError m => m
  end.

(** ** The model client *)

(** [class LlamaModel]: the three attributes set by [__init__] that
    [get_response] reads ([self.messages] is never used). *)
Record LlamaModel : Type := mkLlamaModel {
  model_name : string;
  temperature : Q;
  max_tokens : Z
}.

(** The keyword arguments of one [ollama.chat] call: a single user-role
    message and the two options. *)
Record request : Type := mkRequest {
  req_model : string;
  req_content : string;
  req_temperature : Q;
  req_num_predict : Z
}.

(** What the backend does with a request: [response['message']['content']]
    or an exception. *)
Inductive outcome : Type :=
| Returns (text : string)
| Raises (e : pyexn).

(** ** The world *)

(** What [display_chat_history] writes for one history entry. *)
Inductive rendered : Type :=
| UserLine (v : value)
| LlamaLine (v : value)
| WordCount (n : nat)
| TimeTaken (v : value)
| Divider.

(** Observable effects, in the order they happen. *)
Inductive event : Type :=
| EvTime (reading : Q)
| EvChat (req : request)
| EvLogError (msg : string)
| EvStError (msg : string)
| EvWrite (item : rendered).

(** [clock n] is the value of the [n]-th call of [time.time()], and
    [backend n req] the outcome of the [n]-th call of [ollama.chat]; both are
    fixed by the environment, as is [files], the text files of the working
    directory: [Some content] for a path that holds a readable text file,
    [None] for a path at which nothing exists.  Directories, files without
    read permission and files that do not decode are not part of the model.
    [questions_cache] is the memo table of [st.cache_resource] for
    [load_questions], keyed by the path.  The session state holds the two
    keys the scripts use; [None] means the key is absent. *)
Record world : Type := mkWorld {
  clock : nat -> Q;
  backend : nat -> request -> outcome;
  files : string -> option string;
  ticks : nat;
  chats : nat;
  trace : list event;
  questions_cache : list (string * list string);
  chat_history : option (list value);
  user_input_state : option string
}.

Definition with_ticks (n : nat) (w : world) : world :=
  mkWorld (clock w) (backend w) (files w) n (chats w) (trace w)
          (questions_cache w) (chat_history w) (user_input_state w).

Definition with_chats (n : nat) (w : world) : world :=
  mkWorld (clock w) (backend w) (files w) (ticks w) n (trace w)
          (questions_cache w) (chat_history w) (user_input_state w).

Definition with_trace (t : list event) (w : world) : world :=
  mkWorld (clock w) (backend w) (files w) (ticks w) (chats w) t
          (questions_cache w) (chat_history w) (user_input_state w).

Definition with_questions_cache (c : list (string * list string)) (w : world)
  : world :=
  mkWorld (clock w) (backend w) (files w) (ticks w) (chats w) (trace w)
          c (chat_history w) (user_input_state w).

Definition with_chat_history (h : option (list value)) (w : world) : world :=
  mkWorld (clock w) (backend w) (files w) (ticks w) (chats w) (trace w)
          (questions_cache w) h (user_input_state w).

Definition with_user_input (u : option string) (w : world) : world :=
  mkWorld (clock w) (backend w) (files w) (ticks w) (chats w) (trace w)
          (questions_cache w) (chat_history w) u.

(** ** State and exception monad *)

Inductive result (A : Type) : Type :=
| Ok (a : A)
| Raise (e : pyexn).
Arguments Ok {A} a.
Arguments Raise {A} e.

Definition M (A : Type) : Type := world -> result A * world.

Definition ret {A} (a : A) : M A := fun w => (Ok a, w).

Definition bind {A B} (m : M A) (k : A -> M B) : M B :=
  fun w =>
    match m w with
    | (Ok a, w') => k a w'
    | (Raise e, w') => (Raise e, w')
    end.

Definition raise {A} (e : pyexn) : M A := fun w => (Raise e, w).

(** [try: body except Exception as e: handler e].  Effects of the body up to
    the point of the raise are kept. *)
Definition try_except {A} (body : M A) (handler : pyexn -> M A) : M A :=
  fun w =>
    match body w with
    | (Ok a, w') => (Ok a, w')
    | (Raise e, w') => handler e w'
    end.

Declare Scope monad_scope.
Delimit Scope monad_scope with monad.
Notation "x <- m ;; k" := (bind m (fun x => k))
  (at level 61, m at next level, right associativity) : monad_scope.
Notation "m ;; k" := (bind m (fun _ => k))
  (at level 61, right associativity) : monad_scope.
Local Open Scope monad_scope.

Definition when (b : bool) (m : M unit) : M unit :=
  if b then m else ret tt.

Definition emit (e : event) : M unit :=
  fun w => (Ok tt, with_trace (trace w ++ [e]) w).

(** [time.time()] *)
Definition time_time : M Q :=
  fun w =>
    let t := clock w (ticks w) in
    (Ok t, with_trace (trace w ++ [EvTime t]) (with_ticks (S (ticks w)) w)).

(** [ollama.chat(...)], followed by [response['message']['content']] *)
Definition ollama_chat (req : request) : M string :=
  fun w =>
    let w' := with_trace (trace w ++ [EvChat req]) (with_chats (S (chats w)) w) in
    match backend w (chats w) req with
    | Returns text => (Ok text, w')
    | Raises e => (Raise e, w')
    end.

(** [logging.error(msg)]; the root logger is configured at level INFO, so the
    entry reaches [llamachat.log]. *)
Definition logging_error (msg : string) : M unit := emit (EvLogError msg).

(** [st.error(msg)] *)
Definition st_error (msg : string) : M unit := emit (EvStError msg).

(** [st.write(...)] of one line of the history display *)
Definition st_write (item : rendered) : M unit := emit (EvWrite item).

(** [LlamaModel.get_response] *)
Definition get_response (self : LlamaModel) (user_input : string) : M string :=
  ollama_chat (mkRequest (model_name self) user_input
                         (temperature self) (max_tokens self)).

(** [get_llama_model]; the Streamlit cache only avoids rebuilding the object. *)
Definition get_llama_model (name : string) (temp : Q) (maxtok : Z) : LlamaModel :=
  mkLlamaModel name temp maxtok.

(** ** Operations on Python values *)

Fixpoint dict_get (entries : list (string * value)) (key : string)
  : option value :=
  match entries with
  | [] => None
  | (k, v) :: rest => if String.eqb k key then Some v else dict_get rest key
  end.

(** [d[key] = x]: replaces the value of an existing key in place, or adds the
    key at the end. *)
Fixpoint dict_set (entries : list (string * value)) (key : string) (x : value)
  : list (string * value) :=
  match entries with
  | [] => [(key, x)]
  | (k, v) :: rest =>
      if String.eqb k key then (k, x) :: rest
      else (k, v) :: dict_set rest key x
  end.

(** [v[key]] for a [str] key. *)
Definition getitem (v : value) (key : string) : M value :=
  match v with
  | VDict entries =>
      match dict_get entries key with
      | Some x => ret x
      | None => raise (KeyError key)
      end
  | VTuple _ => raise (TypeError "tuple indices must be integers or slices, not str")
  | VStr _ => raise (TypeError "string indices must be integers, not 'str'")
  | VInt _ => raise (TypeError "'int' object is not subscriptable")
  | VFloat _ => raise (TypeError "'float' object is not subscriptable")
  end.

(** [v[key] = x] for a [str] key; the updated object is returned. *)
Definition setitem (v : value) (key : string) (x : value) : M value :=
  match v with
  | VDict entries => ret (VDict (dict_set entries key x))
  | VTuple _ => raise (TypeError "'tuple' object does not support item assignment")
  | VStr _ => raise (TypeError "'str' object does not support item assignment")
  | VInt _ => raise (TypeError "'int' object does not support item assignment")
  | VFloat _ => raise (TypeError "'float' object does not support item assignment")
  end.

(** [len(v)] *)
Definition py_len (v : value) : M nat :=
  match v with
  | VStr s => ret (String.length s)
  | VTuple items => ret (List.length items)
  | VDict entries => ret (List.length entries)
  | VInt _ => raise (TypeError "object of type 'int' has no len()")
  | VFloat _ => raise (TypeError "object of type 'float' has no len()")
  end.

(** [for x in l: f x] *)
Fixpoint for_each {A} (f : A -> M unit) (l : list A) : M unit :=
  match l with
  | [] => ret tt
  | x :: rest => f x ;; for_each f rest
  end.

(** ** Session state *)

(** [st.session_state.chat_history = h] *)
Definition set_chat_history (h : list value) : M unit :=
  fun w => (Ok tt, with_chat_history (Some h) w).

(** [if 'chat_history' not in st.session_state: st.session_state.chat_history = []] *)
Definition init_chat_history : M unit :=
  fun w =>
    match chat_history w with
    | Some _ => (Ok tt, w)
    | None => (Ok tt, with_chat_history (Some []) w)
    end.

(** [st.session_state.chat_history] *)
Definition get_chat_history : M (list value) :=
  fun w =>
    match chat_history w with
    | Some h => (Ok h, w)
    | None => (Raise (AttributeError "st.session_state has no attribute chat_history"), w)
    end.

(** [st.session_state.chat_history.append(r)] *)
Definition history_append (r : value) : M unit :=
  h <- get_chat_history ;; set_chat_history (h ++ [r]).

(** [st.session_state.user_input = s] *)
Definition set_user_input (s : string) : M unit :=
  fun w => (Ok tt, with_user_input (Some s) w).

(** [if 'user_input' not in st.session_state: st.session_state.user_input = ''] *)
Definition init_user_input : M unit :=
  fun w =>
    match user_input_state w with
    | Some _ => (Ok tt, w)
    | None => (Ok tt, with_user_input (Some EmptyString) w)
    end.

(** [st.text_input('Enter your input:', value='', key='user_input')]: the
    widget is bound to the session key and returns its value. *)
Definition text_input : M string :=
  fun w =>
    match user_input_state w with
    | Some s => (Ok s, w)
    | None => (Ok EmptyString, with_user_input (Some EmptyString) w)
    end.

(** ** Text *)

Definition LF : ascii := "010"%char.
Definition CR : ascii := "013"%char.

(** A one-character string holding a line feed. *)
Definition nl : string := String LF EmptyString.

(** A one-character string holding a double quote. *)
Definition dq : string := String (ascii_of_nat 34) EmptyString.

(** [c.isspace()] for a code point below 256: U+0009..U+000D, U+001C..U+0020,
    U+0085 and U+00A0. *)
Definition is_space (c : ascii) : bool :=
  let n := nat_of_ascii c in
  (Nat.leb 9 n && Nat.leb n 13) || (Nat.leb 28 n && Nat.leb n 32)
  || Nat.eqb n 133 || Nat.eqb n 160.

(** [s.lstrip()] *)
Fixpoint lstrip (s : string) : string :=
  match s with
  | EmptyString => EmptyString
  | String c rest => if is_space c then lstrip rest else s
  end.

(** [s.rstrip()] *)
Fixpoint rstrip (s : string) : string :=
  match s with
  | EmptyString => EmptyString
  | String c rest =>
      match rstrip rest with
      | EmptyString => if is_space c then EmptyString else String c EmptyString
      | r => String c r
      end
  end.

(** [s.strip()] *)
Definition strip (s : string) : string := rstrip (lstrip s).

(** Truth value of a [str]: true when it is not empty. *)
Definition truthy (s : string) : bool :=
  match s with
  | EmptyString => false
  | String _ _ => true
  end.

(** Text mode with universal newlines, the default of [open(path, 'r')]: a
    carriage return followed by a line feed, and a lone carriage return, are
    both read as one line feed. *)
Fixpoint universal_newlines (s : string) : string :=
  match s with
  | EmptyString => EmptyString
  | String c rest =>
      if Ascii.eqb c CR then
        match rest with
        | String c' rest' =>
            if Ascii.eqb c' LF then String LF (universal_newlines rest')
            else String LF (universal_newlines rest)
        | EmptyString => String LF EmptyString
        end
      else String c (universal_newlines rest)
  end.

(** Iterating over a text: each line keeps its line feed; a last line without
    one is still a line. *)
Fixpoint text_lines (s : string) : list string :=
  match s with
  | EmptyString => []
  | String c rest =>
      if Ascii.eqb c LF then String c EmptyString :: text_lines rest
      else
        match text_lines rest with
        | [] => [String c EmptyString]
        | line :: more => String c line :: more
        end
  end.

(** [for line in file] for a file opened in text mode. *)
Definition file_lines (content : string) : list string :=
  text_lines (universal_newlines content).

(** The comprehension of [load_questions]:
    [[line.strip() for line in file if line.strip()]]. *)
Definition stripped_lines (content : string) : list string :=
  map strip (filter (fun line => truthy (strip line)) (file_lines content)).

Fixpoint cache_lookup (c : list (string * list string)) (path : string)
  : option (list string) :=
  match c with
  | [] => None
  | (p, qs) :: rest => if String.eqb p path then Some qs else cache_lookup rest path
  end.

(** [load_questions], which is the same in both scripts.  The decorator
    [st.cache_resource] returns the stored list for a path seen before; a call
    that raises stores nothing. *)
Definition load_questions (file_path : string) : M (list string) :=
  fun w =>
    match cache_lookup (questions_cache w) file_path with
    | Some qs => (Ok qs, w)
    | None =>
        match files w file_path with
        | None => (Raise (FileNotFoundError file_path), w)
        | Some content =>
            let qs := stripped_lines content in
            (Ok qs, with_questions_cache ((file_path, qs) :: questions_cache w) w)
        end
    end.

(** [os.path.exists(path)]: every path of the model either holds a readable
    file or holds nothing. *)
Definition os_path_exists (path : string) : M bool :=
  fun w =>
    match files w path with
    | Some _ => (Ok true, w)
    | None => (Ok false, w)
    end.

(** [random.choice(seq)]; [k] is the draw of the generator. *)
Definition random_choice (k : nat) (seq : list string) : M string :=
  match seq with
  | [] => raise (IndexError "Cannot choose from an empty sequence")
  | _ :: _ => ret (nth (k mod List.length seq) seq EmptyString)
  end.

(** [needle in hay] for two strings. *)
Fixpoint str_in (needle hay : string) : bool :=
  String.prefix needle hay ||
  match hay with
  | EmptyString => false
  | String _ rest => str_in needle rest
  end.

(** [str(tone)] as an f-string field renders it. *)
Definition str_of_tone (tone : option string) : string :=
  match tone with
  | None => "None"
  | Some t => t
  end.

(** ** What the user did before a run of the script *)

(** The widgets of one run: the sidebar selections, the two buttons that
    change state, and, when "Get Random Question" was pressed, the draw of the
    random generator.  The text typed into the input box is in the session
    state under [user_input] when the run starts.  The sidebar texts (header,
    tone explanation, current time) are display only and are left out. *)
Record ui_input : Type := mkUi {
  ui_model_name : string;
  ui_temperature : Q;
  ui_max_tokens : Z;
  ui_selected_tone : string;
  ui_clear_history : bool;
  ui_random_question : option nat
}.

(** The message of the failure path, the same in both scripts. *)
Definition failure_message : string := "Sorry, I couldn't generate a response.".

(** ** sl_llamachat.py *)

Module Llamachat.

(** The keys of [TONES]; the descriptions are only shown by the "Explain
    Tone" button. *)
Definition TONES : list string :=
  ["Analytical"; "Speculative"; "Socratic"; "Didactic"; "Dialectical";
   "Cynical"; "Optimistic"; "Pessimistic"; "Empirical"; "Existential";
   "Normative"; "Absurdist"].

Definition generate_response (llama : LlamaModel) (user_input : string)
  : M value :=
  try_except
    (start_time <- time_time ;;
     response <- get_response llama user_input ;;
     end_time <- time_time ;;
     let time_taken := Qminus end_time start_time in
     ret (VDict [("Response", VStr response);
                 ("Input", VStr user_input);
                 ("Time", VFloat time_taken)]))
    (fun e =>
       logging_error ("Error generating response: " ++ exn_str e) ;;
       st_error failure_message ;;
       ret (VTuple [VStr failure_message; VInt 0; VInt 0; VInt 0])).

(** The body of the loop of [display_chat_history]. *)
Definition display_entry (entry : value) : M unit :=
  i <- getitem entry "Input" ;;
  st_write (UserLine i) ;;
  r <- getitem entry "Response" ;;
  st_write (LlamaLine r) ;;
  r' <- getitem entry "Response" ;;
  n <- py_len r' ;;
  st_write (WordCount n) ;;
  t <- getitem entry "Time" ;;
  st_write (TimeTaken t) ;;
  st_write Divider.

Definition display_chat_history : M unit :=
  h <- get_chat_history ;;
  for_each display_entry (rev h).

(** No test on the tone: the template is always applied. *)
Definition build_prompt (tone : option string) (user_input : string) : string :=
  "You are an expert in discussing philosophical questions. "
  ++ "Your tone is: **" ++ str_of_tone tone ++ "** in nature. "
  ++ "Please provide a thoughtful and detailed answer to the following question: "
  ++ "**" ++ user_input ++ "**".

Definition main (ui : ui_input) : M unit :=
  when (ui_clear_history ui) (set_chat_history []) ;;
  init_chat_history ;;
  let llama :=
    get_llama_model (ui_model_name ui) (ui_temperature ui) (ui_max_tokens ui) in
  questions <- load_questions "questions.txt" ;;
  match ui_random_question ui with
  | Some k =>
      random_question <- random_choice k questions ;;
      set_user_input random_question
  | None => ret tt
  end ;;
  init_user_input ;;
  user_input <- text_input ;;
  let prompt := build_prompt (Some (ui_selected_tone ui)) user_input in
  result <- generate_response llama prompt ;;
  (if truthy user_input then
     result <- generate_response llama user_input ;;
     history_append result
   else ret tt) ;;
  display_chat_history.

End Llamachat.

(** ** sl_llm_philosopher.py *)

Module Philosopher.

(** Line 67 of the file, character by character.  The literal that opens
    before [Epistemology] is closed by the quote that was meant to open
    [Ethics], and so on to the end of the line, where the last quote opens a
    literal that nothing closes. *)
Definition line_67 : string :=
  "CLASSES = [" ++ dq ++ "Metaphysics" ++ dq ++ ", "
  ++ dq ++ "Epistemology', "
  ++ dq ++ "Ethics" ++ dq ++ ", "
  ++ dq ++ "Aesthetics" ++ dq ++ ", "
  ++ dq ++ "Logic and Reasoning" ++ dq ++ ", "
  ++ dq ++ "Political Philosophy" ++ dq ++ ", "
  ++ dq ++ "Philosophy of Science" ++ dq ++ ", "
  ++ dq ++ "Philosophy of Religion" ++ dq ++ ", "
  ++ dq ++ "Philosophy of Mind" ++ dq ++ ", "
  ++ dq ++ "Philosophy of Language" ++ dq ++ ", "
  ++ dq ++ "Philosophy of Time" ++ dq ++ "]".

(** Lines 159 and 162, inside [main]: the keyword [class] as the target and
    as the value of an assignment. *)
Definition line_159 : string := "            class  = result['response']".
Definition line_162 : string := "            result['class'] = class ".

(** The lines of the file that do not compile, with their numbers.  Every
    one of them starts outside any string literal. *)
Definition source : list (nat * string) :=
  [(67, line_67); (159, line_159); (162, line_162)].

(** The keys of [TONES]. *)
Definition TONES : list string :=
  ["Neutral"; "Analytical"; "Speculative"; "Socratic"; "Didactic";
   "Dialectical"; "Cynical"; "Optimistic"; "Pessimistic"; "Empirical";
   "Existential"; "Normative"; "Absurdist"].

Definition generate_response (llm : LlamaModel) (user_input : string)
  : M value :=
  try_except
    (start_time <- time_time ;;
     response <- get_response llm user_input ;;
     end_time <- time_time ;;
     let time_taken := Qminus end_time start_time in
     ret (VDict [("response", VStr response);
                 ("input", VStr user_input);
                 ("time", VFloat time_taken)]))
    (fun e =>
       logging_error ("Error generating response: " ++ exn_str e) ;;
       st_error failure_message ;;
       ret (VTuple [VStr failure_message; VInt 0; VInt 0; VInt 0])).

(** The body of the loop of [display_chat_history]; the first key is
    capitalised in the source, the others are not. *)
Definition display_entry (entry : value) : M unit :=
  i <- getitem entry "Input" ;;
  st_write (UserLine i) ;;
  r <- getitem entry "response" ;;
  st_write (LlamaLine r) ;;
  r' <- getitem entry "response" ;;
  n <- py_len r' ;;
  st_write (WordCount n) ;;
  t <- getitem entry "time" ;;
  st_write (TimeTaken t) ;;
  st_write Divider.

Definition display_chat_history : M unit :=
  h <- get_chat_history ;;
  for_each display_entry (rev h).

Definition build_prompt (tone : option string) (user_input : string) : string :=
  match tone with
  | None => user_input
  | Some t =>
      if String.eqb t "Neutral" then user_input
      else
        "You are an expert in discussing philosophical questions. "
        ++ "Your tone is: **" ++ t ++ "** in nature. "
        ++ "Please provide a thoughtful and detailed answer to the following question: "
        ++ "**" ++ user_input ++ "**"
  end.

Definition config_panel (ui : ui_input) : M (LlamaModel * string) :=
  when (ui_clear_history ui) (set_chat_history []) ;;
  init_chat_history ;;
  let llm :=
    get_llama_model (ui_model_name ui) (ui_temperature ui) (ui_max_tokens ui) in
  ret (llm, ui_selected_tone ui).

Definition get_new_question (ui : ui_input) : M string :=
  found <- os_path_exists "questions.txt" ;;
  (if found then
     questions <- load_questions "questions.txt" ;;
     match ui_random_question ui with
     | Some k =>
         random_question <- random_choice k questions ;;
         set_user_input random_question
     | None => ret tt
     end
   else ret tt) ;;
  init_user_input ;;
  text_input.

End Philosopher.

(** ** Compiling a script *)

(** Python compiles a whole file before it runs the first statement of it.
    Two checks of the compiler are modelled, each on one physical line that
    starts outside any string literal: the string literals of the tokenizer,
    and the place of the keyword [class] in the grammar. *)

Inductive token : Type :=
| TName (s : string)
| TString
| TOp (c : ascii).

(** Where the tokenizer is inside a line.  [Quote1] and [Quote2] follow one
    and two opening quotes; [Long q n] is inside a triple-quoted literal, [n]
    closing quotes seen. *)
Inductive lex_state : Type :=
| Code
| InName (acc : string)
| Quote1 (q : ascii)
| Quote2 (q : ascii)
| Short (q : ascii)
| ShortEsc (q : ascii)
| Long (q : ascii) (n : nat)
| LongEsc (q : ascii)
| InComment.

Definition is_quote (c : ascii) : bool :=
  Nat.eqb (nat_of_ascii c) 34 || Nat.eqb (nat_of_ascii c) 39.

Definition is_backslash (c : ascii) : bool := Nat.eqb (nat_of_ascii c) 92.

Definition is_hash (c : ascii) : bool := Nat.eqb (nat_of_ascii c) 35.

(** White space between tokens: space, tab and form feed. *)
Definition is_token_space (c : ascii) : bool :=
  let n := nat_of_ascii c in
  Nat.eqb n 32 || Nat.eqb n 9 || Nat.eqb n 12.

(** A character of an identifier, a keyword or a number. *)
Definition is_name_char (c : ascii) : bool :=
  let n := nat_of_ascii c in
  (Nat.leb 48 n && Nat.leb n 57) || (Nat.leb 65 n && Nat.leb n 90)
  || (Nat.leb 97 n && Nat.leb n 122) || Nat.eqb n 95 || Nat.leb 128 n.

(** The tokenizer between two tokens. *)
Definition lex_code (c : ascii) : lex_state * list token :=
  if is_hash c then (InComment, [])
  else if is_quote c then (Quote1 c, [])
  else if is_name_char c then (InName (String c EmptyString), [])
  else if is_token_space c then (Code, [])
  else (Code, [TOp c]).

(** One character: the next state and the tokens that are complete. *)
Definition lex_char (st : lex_state) (c : ascii) : lex_state * list token :=
  match st with
  | Code => lex_code c
  | InName acc =>
      if is_name_char c then (InName (acc ++ String c EmptyString), [])
      else let (st', ts) := lex_code c in (st', TName acc :: ts)
  | Quote1 q =>
      if Ascii.eqb c q then (Quote2 q, [])
      else if is_backslash c then (ShortEsc q, [])
      else (Short q, [])
  | Quote2 q =>
      if Ascii.eqb c q then (Long q 0, [])
      else let (st', ts) := lex_code c in (st', TString :: ts)
  | Short q =>
      if Ascii.eqb c q then (Code, [TString])
      else if is_backslash c then (ShortEsc q, [])
      else (Short q, [])
  | ShortEsc q => (Short q, [])
  | Long q n =>
      if Ascii.eqb c q then
        match n with
        | S (S _) => (Code, [TString])
        | _ => (Long q (S n), [])
        end
      else if is_backslash c then (LongEsc q, [])
      else (Long q 0, [])
  | LongEsc q => (Long q 0, [])
  | InComment => (InComment, [])
  end.

Fixpoint lex_from (st : lex_state) (s : string) : lex_state * list token :=
  match s with
  | EmptyString => (st, [])
  | String c rest =>
      let (st', ts) := lex_char st c in
      let (st'', ts') := lex_from st' rest in
      (st'', ts ++ ts')
  end.

(** The tokens of a line, or [None] when the line ends inside a literal that
    one quote opened: an unterminated string literal.  A triple-quoted
    literal, and a literal before a backslash at the end of the line, go on
    in the next line. *)
Definition lex_line (line : string) : option (list token) :=
  let (st, ts) := lex_from Code line in
  match st with
  | Code | InComment | ShortEsc _ | Long _ _ | LongEsc _ => Some ts
  | InName acc => Some (ts ++ [TName acc])
  | Quote2 _ => Some (ts ++ [TString])
  | Quote1 _ | Short _ => None
  end.

Definition is_class (t : token) : bool :=
  match t with
  | TName s => String.eqb s "class"
  | _ => false
  end.

(** The keyword [class] occurs in one rule of the grammar, the class
    definition ['class' NAME ...], which starts a statement: anywhere else in
    a line it is invalid syntax. *)
Definition class_in_place (ts : list token) : bool :=
  match ts with
  | TName k :: TName n :: rest =>
      if String.eqb k "class" then negb (existsb is_class (TName n :: rest))
      else negb (existsb is_class ts)
  | _ => negb (existsb is_class ts)
  end.

Inductive syntax_fault : Type :=
| UnterminatedString (lineno : nat)
| InvalidSyntax (lineno : nat).

Definition check_line (numbered : nat * string) : option syntax_fault :=
  let (lineno, line) := numbered in
  match lex_line line with
  | None => Some (UnterminatedString lineno)
  | Some ts => if class_in_place ts then None else Some (InvalidSyntax lineno)
  end.

(** The fault of the first line that has one. *)
Fixpoint syntax_error (source : list (nat * string)) : option syntax_fault :=
  match source with
  | [] => None
  | numbered :: rest =>
      match check_line numbered with
      | Some fault => Some fault
      | None => syntax_error rest
      end
  end.

(** Running a script file: [SyntaxError] before anything is executed when a
    line does not compile, and the statements of the file otherwise. *)
Inductive run_outcome : Type :=
| NotCompiled (fault : syntax_fault)
| Ran (r : result unit * world).

Definition run_script (source : list (nat * string)) (body : M unit)
    (w : world) : run_outcome :=
  match syntax_error source with
  | Some fault => NotCompiled fault
  | None => Ran (body w)
  end.

(** The world a run that started in [w] leaves. *)
Definition world_after (w : world) (o : run_outcome) : world :=
  match o with
  | NotCompiled _ => w
  | Ran r => snd r
  end.

(** ** Exceptions that are not derived from [Exception] *)

(** [pyexn] holds classes derived from [Exception], and the backend of a
    [world] raises nothing else.  Python has exceptions derived from
    [BaseException] alone, and [except Exception] does not match them.  What
    [generate_response] does when one of them is raised during the backend
    call is given by a second reading of its text, over a result type that
    can carry them; with no such exception both readings agree. *)
Inductive base_only : Type :=
| KeyboardInterrupt
| SystemExit
| GeneratorExit.

Inductive raised : Type :=
| Derived (e : pyexn)
| BaseOnly (b : base_only).

Module Interruptible.

Inductive outcome_any (A : Type) : Type :=
| Done (a : A)
| Propagates (x : raised).
Arguments Done {A} a.
Arguments Propagates {A} x.

Definition I (A : Type) : Type := world -> outcome_any A * world.

Definition lift {A} (m : M A) : I A :=
  fun w =>
    match m w with
    | (Ok a, w') => (Done a, w')
    | (Raise e, w') => (Propagates (Derived e), w')
    end.

Definition ret_any {A} (a : A) : I A := fun w => (Done a, w).

Definition bind_any {A B} (m : I A) (k : A -> I B) : I B :=
  fun w =>
    match m w with
    | (Done a, w') => k a w'
    | (Propagates x, w') => (Propagates x, w')
    end.

(** [try: body except Exception as e: handler e]: an exception that is not
    derived from [Exception] passes through. *)
Definition try_except_Exception {A} (body : I A) (handler : pyexn -> I A)
  : I A :=
  fun w =>
    match body w with
    | (Done a, w') => (Done a, w')
    | (Propagates (Derived e), w') => handler e w'
    | (Propagates (BaseOnly b), w') => (Propagates (BaseOnly b), w')
    end.

(** [ollama.chat(...)] during which [signal] is raised, if any: the request
    is under way when it arrives. *)
Definition ollama_chat_under (signal : option base_only) (req : request)
  : I string :=
  match signal with
  | Some b =>
      fun w =>
        (Propagates (BaseOnly b),
         with_trace (trace w ++ [EvChat req]) (with_chats (S (chats w)) w))
  | None => lift (ollama_chat req)
  end.

(** [LlamaModel.get_response] *)
Definition get_response_under (signal : option base_only) (self : LlamaModel)
    (user_input : string) : I string :=
  ollama_chat_under signal
    (mkRequest (model_name self) user_input (temperature self) (max_tokens self)).

(** [generate_response] of [sl_llamachat.py] *)
Definition llamachat_generate_response (signal : option base_only)
    (llama : LlamaModel) (user_input : string) : I value :=
  try_except_Exception
    (bind_any (lift time_time) (fun start_time =>
     bind_any (get_response_under signal llama user_input) (fun response =>
     bind_any (lift time_time) (fun end_time =>
     let time_taken := Qminus end_time start_time in
     ret_any (VDict [("Response", VStr response);
                     ("Input", VStr user_input);
                     ("Time", VFloat time_taken)])))))
    (fun e =>
       bind_any (lift (logging_error ("Error generating response: " ++ exn_str e)))
         (fun _ =>
       bind_any (lift (st_error failure_message)) (fun _ =>
       ret_any (VTuple [VStr failure_message; VInt 0; VInt 0; VInt 0])))).

(** [generate_response] of [sl_llm_philosopher.py] *)
Definition philosopher_generate_response (signal : option base_only)
    (llm : LlamaModel) (user_input : string) : I value :=
  try_except_Exception
    (bind_any (lift time_time) (fun start_time =>
     bind_any (get_response_under signal llm user_input) (fun response =>
     bind_any (lift time_time) (fun end_time =>
     let time_taken := Qminus end_time start_time in
     ret_any (VDict [("response", VStr response);
                     ("input", VStr user_input);
                     ("time", VFloat time_taken)])))))
    (fun e =>
       bind_any (lift (logging_error ("Error generating response: " ++ exn_str e)))
         (fun _ =>
       bind_any (lift (st_error failure_message)) (fun _ =>
       ret_any (VTuple [VStr failure_message; VInt 0; VInt 0; VInt 0])))).

End Interruptible.

(** ** Observations used in the statements *)

(** A line that holds nothing but whitespace (or nothing at all). *)
Fixpoint is_blank (s : string) : bool :=
  match s with
  | EmptyString => true
  | String c rest => is_space c && is_blank rest
  end.

(** The first character is whitespace. *)
Definition starts_with_space (s : string) : bool :=
  match s with
  | EmptyString => false
  | String c _ => is_space c
  end.

(** The last character is whitespace. *)
Fixpoint ends_with_space (s : string) : bool :=
  match s with
  | EmptyString => false
  | String c EmptyString => is_space c
  | String _ rest => ends_with_space rest
  end.

(** The prompts sent to the backend, oldest first. *)
Fixpoint chat_prompts (t : list event) : list string :=
  match t with
  | [] => []
  | EvChat req :: rest => req_content req :: chat_prompts rest
  | _ :: rest => chat_prompts rest
  end.

(** The entries written to the log file, oldest first. *)
Fixpoint log_entries (t : list event) : list string :=
  match t with
  | [] => []
  | EvLogError msg :: rest => msg :: log_entries rest
  | _ :: rest => log_entries rest
  end.

(** The request [get_response] builds for a model object and a prompt. *)
Definition request_of (llm : LlamaModel) (prompt : string) : request :=
  mkRequest (model_name llm) prompt (temperature llm) (max_tokens llm).

(** The tuple returned on the failure path of [generate_response]. *)
Definition failure_result : value :=
  VTuple [VStr failure_message; VInt 0; VInt 0; VInt 0].

(** The history as a list: an absent key holds no record. *)
Definition history_of (w : world) : list value :=
  match chat_history w with
  | Some h => h
  | None => []
  end.

(** The text file of the example: three questions, an empty line and a line
    of two spaces. *)
Definition example_questions_txt : string :=
  "Q1" ++ nl ++ nl ++ "Q2" ++ nl ++ "  " ++ nl ++ "Q3" ++ nl.

(** The world after a call of [generate_response] that succeeded: two
    clock readings around one backend call. *)
Definition after_success (llm : LlamaModel) (prompt : string) (w : world)
  : world :=
  with_trace (trace w ++ [EvTime (clock w (ticks w));
                          EvChat (request_of llm prompt);
                          EvTime (clock w (S (ticks w)))])
             (with_chats (S (chats w)) (with_ticks (S (S (ticks w))) w)).

(** The world after a call of [generate_response] whose backend call raised
    [e]: one clock reading, the call, the log entry and the message shown. *)
Definition after_failure (llm : LlamaModel) (prompt : string) (e : pyexn)
    (w : world) : world :=
  with_trace (trace w ++ [EvTime (clock w (ticks w));
                          EvChat (request_of llm prompt);
                          EvLogError ("Error generating response: " ++ exn_str e);
                          EvStError failure_message])
             (with_chats (S (chats w)) (with_ticks (S (ticks w)) w)).

(** The duration [generate_response] computes when it is entered in [w]. *)
Definition elapsed (w : world) : Q :=
  Qminus (clock w (S (ticks w))) (clock w (ticks w)).

(** A computation that changes the world by [st.write] calls only. *)
Definition only_writes {A} (m : M A) : Prop :=
  forall w, exists items,
    snd (m w) = with_trace (trace w ++ map EvWrite items)%list w.

(** ** Sample environments *)

(** A steady clock: the [n]-th reading is [n] seconds. *)
Definition steady_clock (n : nat) : Q := inject_Z (Z.of_nat n).

(** A clock that is set back between its first two readings. *)
Definition stepped_back_clock (n : nat) : Q :=
  match n with
  | O => inject_Z 10
  | S _ => inject_Z 5
  end.

(** A backend that answers every request. *)
Definition answering_backend (n : nat) (req : request) : outcome :=
  Returns "An answer.".

(** A backend that is down. *)
Definition failing_backend (n : nat) (req : request) : outcome :=
  Raises (BackendError "connection refused").

(** A fresh session: nothing cached, nothing in the session state but the
    text in the input box, and [questions.txt] with the given content. *)
Definition fresh_world (clk : nat -> Q) (bk : nat -> request -> outcome)
    (questions : option string) (typed : option string) : world :=
  mkWorld clk bk
          (fun path => if String.eqb path "questions.txt" then questions else None)
          0 0 [] [] None typed.

Definition sample_model : LlamaModel := mkLlamaModel "llama3.2" (1 # 2) 2000.

(** The sidebar left at a non-neutral tone, no button pressed. *)
Definition sample_ui : ui_input :=
  mkUi "llama3.2" (1 # 2) 2000 "Analytical" false None.

(** ** Further observations *)

(** The requests sent to the backend, oldest first. *)
Fixpoint chat_requests (t : list event) : list request :=
  match t with
  | [] => []
  | EvChat req :: rest => req :: chat_requests rest
  | _ :: rest => chat_requests rest
  end.

(** The messages shown through [st.error], oldest first. *)
Fixpoint shown_errors (t : list event) : list string :=
  match t with
  | [] => []
  | EvStError msg :: rest => msg :: shown_errors rest
  | _ :: rest => shown_errors rest
  end.

(** The items written through [st.write], oldest first. *)
Fixpoint written (t : list event) : list rendered :=
  match t with
  | [] => []
  | EvWrite item :: rest => item :: written rest
  | _ :: rest => written rest
  end.

(** One exchange, as a success record of [sl_llamachat.py] stores it. *)
Record exchange : Type := mkExchange {
  ex_input : string;
  ex_response : string;
  ex_time : Q
}.

(** The dictionary [generate_response] of [sl_llamachat.py] returns for an
    exchange. *)
Definition llamachat_record (x : exchange) : value :=
  VDict [("Response", VStr (ex_response x)); ("Input", VStr (ex_input x));
         ("Time", VFloat (ex_time x))].

(** A record with the keys of [sl_llm_philosopher.py]: the three keys of its
    [generate_response] and the key [class] that the text of its [main]
    adds. *)
Definition philosopher_record (x : exchange) (cls : string) : value :=
  VDict [("response", VStr (ex_response x)); ("input", VStr (ex_input x));
         ("time", VFloat (ex_time x)); ("class", VStr cls)].

(** The five items the history display of [sl_llamachat.py] shows for an
    exchange. *)
Definition exchange_block (x : exchange) : list rendered :=
  [UserLine (VStr (ex_input x)); LlamaLine (VStr (ex_response x));
   WordCount (String.length (ex_response x)); TimeTaken (VFloat (ex_time x));
   Divider].

(** A computation that keeps a property of the world. *)
Definition preserves {A} (P : world -> Prop) (m : M A) : Prop :=
  forall w, P w -> P (snd (m w)).

(** A computation that raises from every world with the property. *)
Definition raises_from {A} (P : world -> Prop) (m : M A) : Prop :=
  forall w, P w -> exists e, fst (m w) = Raise e.

(** The history holds a failure result of [generate_response]. *)
Definition history_has_failure (w : world) : Prop :=
  exists older newer,
    chat_history w = Some (older ++ failure_result :: newer).

(** The session of a user who typed [q] and whose question file reads
    [content]. *)
Definition session_with (content q : string) (w : world) : Prop :=
  files w "questions.txt" = Some content /\ user_input_state w = Some q.

(** The world after the files on disk have changed to [f]. *)
Definition with_files (f : string -> option string) (w : world) : world :=
  mkWorld (clock w) (backend w) f (ticks w) (chats w) (trace w)
          (questions_cache w) (chat_history w) (user_input_state w).

(** * Properties *)

(** ** Text lemmas *)

Local Open Scope string_scope.

Lemma lstrip_blank s : is_blank s = true -> lstrip s = EmptyString.
Proof.
  induction s as [|c s IH]; simpl; [reflexivity|].
  intros H. apply andb_true_iff in H as [Hc Hs].
  rewrite Hc. auto.
Qed.

Lemma lstrip_blank_inv s : is_blank (lstrip s) = true -> is_blank s = true.
Proof.
  induction s as [|c s IH]; simpl; [reflexivity|].
  destruct (is_space c) eqn:Hc; simpl; [exact IH|].
  rewrite Hc. simpl. discriminate.
Qed.

Lemma rstrip_empty_iff s : rstrip s = EmptyString <-> is_blank s = true.
Proof.
  induction s as [|c s IH]; simpl; [tauto|].
  destruct (rstrip s) eqn:Hr.
  - destruct (is_space c); simpl.
    + split; intros _; [apply IH|]; reflexivity.
    + split; discriminate.
  - split; [discriminate|].
    intros H. apply andb_true_iff in H as [_ Hs].
    apply IH in Hs. discriminate.
Qed.

Lemma strip_empty_iff s : strip s = EmptyString <-> is_blank s = true.
Proof.
  unfold strip. rewrite rstrip_empty_iff. split.
  - apply lstrip_blank_inv.
  - intros H. rewrite (lstrip_blank s H). reflexivity.
Qed.

Lemma truthy_strip s : truthy (strip s) = negb (is_blank s).
Proof.
  destruct (is_blank s) eqn:Hb; simpl.
  - apply strip_empty_iff in Hb. rewrite Hb. reflexivity.
  - destruct (strip s) eqn:Hs; [|reflexivity].
    apply strip_empty_iff in Hs. congruence.
Qed.

Lemma truthy_true_nonempty s : truthy s = true -> s <> EmptyString.
Proof. destruct s; simpl; congruence. Qed.

Lemma prefix_append s rest : String.prefix s (s ++ rest) = true.
Proof.
  induction s as [|c s IH]; simpl.
  - destruct rest; reflexivity.
  - destruct (ascii_dec c c) as [_|N]; [exact IH|congruence].
Qed.

Lemma str_in_unfold needle hay :
  str_in needle hay =
  String.prefix needle hay ||
  match hay with
  | EmptyString => false
  | String _ rest => str_in needle rest
  end.
Proof. destruct hay; reflexivity. Qed.

Lemma str_in_here s rest : str_in s (s ++ rest) = true.
Proof. rewrite str_in_unfold, prefix_append. reflexivity. Qed.

Lemma str_in_skip c s hay : str_in s hay = true -> str_in s (String c hay) = true.
Proof. intros H. rewrite str_in_unfold, H. apply orb_true_r. Qed.

Lemma str_in_app_r pre s hay : str_in s hay = true -> str_in s (pre ++ hay) = true.
Proof.
  intros H. induction pre as [|c pre IH].
  - exact H.
  - change (String c pre ++ hay) with (String c (pre ++ hay)).
    apply str_in_skip, IH.
Qed.

(** ** The prompt builder *)

(** C2, as amended.  In [sl_llm_philosopher.py] the neutral sentinel, be it
    [None] or the tone named Neutral, passes the question through unchanged,
    for every question. *)
Theorem build_prompt_neutral_is_identity :
  forall question : string,
    Philosopher.build_prompt None question = question /\
    Philosopher.build_prompt (Some "Neutral") question = question.
Proof. intros question. split; reflexivity. Qed.

(** C2 as stated fails on [sl_llamachat.py]: its [build_prompt] has no test on
    the tone, so the sentinel is formatted into the template like any other
    tone and the result is not the question. *)
Lemma build_prompt_neutral_llamachat_differs :
  Llamachat.build_prompt None "Q" <> "Q" /\
  Llamachat.build_prompt (Some "Neutral") "Q" <> "Q".
Proof. split; discriminate. Qed.

(** The tone list of [sl_llamachat.py] offers no neutral entry, the one of
    [sl_llm_philosopher.py] does. *)
Lemma neutral_only_in_philosopher :
  ~ In "Neutral" Llamachat.TONES /\ In "Neutral" Philosopher.TONES.
Proof.
  split.
  - unfold Llamachat.TONES. simpl. intros H.
    repeat (destruct H as [H|H]; [discriminate H|]). exact H.
  - left. reflexivity.
Qed.

(** C3.  For a tone that is not the neutral sentinel, the prompt of either
    script contains the tone name and contains the question verbatim. *)
Theorem build_prompt_contains_tone_and_question :
  forall tone question : string,
    tone <> "Neutral" ->
    str_in tone (Philosopher.build_prompt (Some tone) question) = true /\
    str_in question (Philosopher.build_prompt (Some tone) question) = true /\
    str_in tone (Llamachat.build_prompt (Some tone) question) = true /\
    str_in question (Llamachat.build_prompt (Some tone) question) = true.
Proof.
  intros tone question Hneq.
  assert (E : String.eqb tone "Neutral" = false)
    by (apply String.eqb_neq; exact Hneq).
  unfold Philosopher.build_prompt, Llamachat.build_prompt, str_of_tone.
  rewrite E.
  repeat split.
  - do 2 apply str_in_app_r. apply str_in_here.
  - do 6 apply str_in_app_r. apply str_in_here.
  - do 2 apply str_in_app_r. apply str_in_here.
  - do 6 apply str_in_app_r. apply str_in_here.
Qed.

Lemma build_prompt_contains_tone_and_question_witness :
  "Socratic" <> "Neutral" /\
  str_in "Socratic" (Philosopher.build_prompt (Some "Socratic") "What is time?")
  = true.
Proof.
  split.
  - discriminate.
  - apply (build_prompt_contains_tone_and_question "Socratic" "What is time?").
    discriminate.
Defined.

(** ** The question file *)

Lemma stripped_lines_spec content :
  stripped_lines content =
  map strip (filter (fun line => negb (is_blank line)) (file_lines content)).
Proof.
  unfold stripped_lines. f_equal.
  apply filter_ext. intros line. apply truthy_strip.
Qed.

Lemma load_questions_fresh w path content :
  files w path = Some content ->
  cache_lookup (questions_cache w) path = None ->
  load_questions path w =
  (Ok (stripped_lines content),
   with_questions_cache ((path, stripped_lines content) :: questions_cache w) w).
Proof.
  intros Hf Hc. unfold load_questions. rewrite Hc, Hf. reflexivity.
Qed.

(** C7.  On the example file the three questions come back; in general a
    first read of a file returns, in file order, the stripped text of
    exactly those lines that are not blank or whitespace-only. *)
Theorem load_questions_drops_blank_lines :
  stripped_lines example_questions_txt = ["Q1"; "Q2"; "Q3"]%list /\
  (forall (w : world) (path : string),
      files w path = Some example_questions_txt ->
      cache_lookup (questions_cache w) path = None ->
      fst (load_questions path w) = Ok ["Q1"; "Q2"; "Q3"]%list) /\
  (forall (w : world) (path content : string),
      files w path = Some content ->
      cache_lookup (questions_cache w) path = None ->
      fst (load_questions path w) =
      Ok (map strip
              (filter (fun line => negb (is_blank line)) (file_lines content)))).
Proof.
  split; [reflexivity|]. split.
  - intros w path Hf Hc. rewrite (load_questions_fresh w path _ Hf Hc).
    reflexivity.
  - intros w path content Hf Hc.
    rewrite (load_questions_fresh w path _ Hf Hc). simpl.
    rewrite stripped_lines_spec. reflexivity.
Qed.

Lemma load_questions_drops_blank_lines_witness :
  fst (load_questions "questions.txt"
         (fresh_world steady_clock answering_backend
                      (Some example_questions_txt) None))
  = Ok ["Q1"; "Q2"; "Q3"]%list.
Proof.
  apply (proj1 (proj2 load_questions_drops_blank_lines)); reflexivity.
Defined.

(** C9 as stated fails: a readable file without any question, be it empty
    or made of blank lines only, yields the empty list. *)
Lemma load_questions_can_be_empty :
  stripped_lines EmptyString = []%list /\
  stripped_lines (nl ++ "  " ++ nl) = []%list /\
  fst (load_questions "questions.txt"
         (fresh_world steady_clock answering_backend
                      (Some (nl ++ "  " ++ nl)) None))
  = Ok []%list.
Proof. split; [reflexivity|]. split; reflexivity. Qed.

(** C9, as amended.  A first read of a readable file returns an ordered list
    whose every element is a non-empty string; the list itself is empty
    exactly when every line of the file is blank or whitespace-only. *)
Theorem load_questions_elements_nonempty :
  forall (w : world) (path content : string),
    files w path = Some content ->
    cache_lookup (questions_cache w) path = None ->
    exists questions : list string,
      fst (load_questions path w) = Ok questions /\
      (forall q, In q questions -> q <> EmptyString) /\
      (questions = []%list <->
       forall line, In line (file_lines content) -> is_blank line = true).
Proof.
  intros w path content Hf Hc.
  exists (stripped_lines content).
  rewrite (load_questions_fresh w path _ Hf Hc). simpl.
  split; [reflexivity|]. split.
  - intros q Hq. unfold stripped_lines in Hq.
    apply in_map_iff in Hq as [line [Hl Hin]].
    apply filter_In in Hin as [_ Ht].
    subst q. apply truthy_true_nonempty. exact Ht.
  - rewrite stripped_lines_spec.
    induction (file_lines content) as [|line ls IH]; simpl.
    + split; [intros _ l []|reflexivity].
    + destruct (is_blank line) eqn:Hb; simpl.
      * rewrite IH. split.
        -- intros H l [<-|Hl]; [exact Hb|apply H, Hl].
        -- intros H l Hl. apply H. right. exact Hl.
      * split; [discriminate|].
        intros H. specialize (H line (or_introl eq_refl)). congruence.
Qed.

Lemma load_questions_elements_nonempty_witness :
  exists questions : list string,
    fst (load_questions "questions.txt"
           (fresh_world steady_clock answering_backend
                        (Some example_questions_txt) None))
    = Ok questions /\
    (forall q, In q questions -> q <> EmptyString) /\
    (questions = []%list <->
     forall line, In line (file_lines example_questions_txt) ->
                  is_blank line = true).
Proof.
  apply (load_questions_elements_nonempty
           (fresh_world steady_clock answering_backend
                        (Some example_questions_txt) None)
           "questions.txt" example_questions_txt); reflexivity.
Defined.

(** ** The response recorder *)

Ltac run_monad :=
  unfold bind, ret, raise, try_except, when, emit, logging_error, st_error,
    st_write, time_time, get_response, ollama_chat, request_of in *;
  cbn [fst snd clock backend files ticks chats trace questions_cache
       chat_history user_input_state with_trace with_ticks with_chats
       with_chat_history with_user_input with_questions_cache
       model_name temperature max_tokens] in *.

Lemma llamachat_generate_response_ok llm prompt w text :
  backend w (chats w) (request_of llm prompt) = Returns text ->
  Llamachat.generate_response llm prompt w =
  (Ok (VDict [("Response", VStr text); ("Input", VStr prompt);
              ("Time", VFloat (elapsed w))]%list),
   after_success llm prompt w).
Proof.
  intros H. unfold Llamachat.generate_response, after_success, elapsed.
  run_monad. rewrite H. f_equal.
  unfold with_trace, with_chats, with_ticks; cbn.
  rewrite <- !app_assoc. reflexivity.
Qed.

Lemma llamachat_generate_response_err llm prompt w e :
  backend w (chats w) (request_of llm prompt) = Raises e ->
  Llamachat.generate_response llm prompt w =
  (Ok failure_result, after_failure llm prompt e w).
Proof.
  intros H. unfold Llamachat.generate_response, after_failure, failure_result.
  run_monad. rewrite H. f_equal.
  unfold with_trace, with_chats, with_ticks; cbn.
  rewrite <- !app_assoc. reflexivity.
Qed.

Lemma philosopher_generate_response_ok llm prompt w text :
  backend w (chats w) (request_of llm prompt) = Returns text ->
  Philosopher.generate_response llm prompt w =
  (Ok (VDict [("response", VStr text); ("input", VStr prompt);
              ("time", VFloat (elapsed w))]%list),
   after_success llm prompt w).
Proof.
  intros H. unfold Philosopher.generate_response, after_success, elapsed.
  run_monad. rewrite H. f_equal.
  unfold with_trace, with_chats, with_ticks; cbn.
  rewrite <- !app_assoc. reflexivity.
Qed.

Lemma philosopher_generate_response_err llm prompt w e :
  backend w (chats w) (request_of llm prompt) = Raises e ->
  Philosopher.generate_response llm prompt w =
  (Ok failure_result, after_failure llm prompt e w).
Proof.
  intros H. unfold Philosopher.generate_response, after_failure, failure_result.
  run_monad. rewrite H. f_equal.
  unfold with_trace, with_chats, with_ticks; cbn.
  rewrite <- !app_assoc. reflexivity.
Qed.

Lemma log_entries_app t1 t2 :
  log_entries (t1 ++ t2)%list = (log_entries t1 ++ log_entries t2)%list.
Proof.
  induction t1 as [|ev t1 IH]; [reflexivity|].
  destruct ev; simpl; rewrite IH; reflexivity.
Qed.

Lemma chat_prompts_app t1 t2 :
  chat_prompts (t1 ++ t2)%list = (chat_prompts t1 ++ chat_prompts t2)%list.
Proof.
  induction t1 as [|ev t1 IH]; [reflexivity|].
  destruct ev; simpl; rewrite IH; reflexivity.
Qed.

(** C1, as amended.  In both scripts [generate_response] returns a value
    whenever the backend call returns or raises an exception derived from
    [Exception].  When the call raises such an exception, the value is the
    tuple of the fixed message and three zeros, and exactly one entry,
    carrying the text of the exception, is added to the log. *)
Theorem generate_response_failure_is_caught :
  (forall (llm : LlamaModel) (prompt : string) (w : world),
      (exists v, fst (Llamachat.generate_response llm prompt w) = Ok v) /\
      (exists v, fst (Philosopher.generate_response llm prompt w) = Ok v)) /\
  (forall (llm : LlamaModel) (prompt : string) (w : world) (e : pyexn),
      backend w (chats w) (request_of llm prompt) = Raises e ->
      fst (Llamachat.generate_response llm prompt w)
      = Ok (VTuple [VStr failure_message; VInt 0; VInt 0; VInt 0]%list) /\
      log_entries (trace (snd (Llamachat.generate_response llm prompt w)))
      = (log_entries (trace w)
         ++ [("Error generating response: " ++ exn_str e)%string])%list /\
      fst (Philosopher.generate_response llm prompt w)
      = Ok (VTuple [VStr failure_message; VInt 0; VInt 0; VInt 0]%list) /\
      log_entries (trace (snd (Philosopher.generate_response llm prompt w)))
      = (log_entries (trace w)
         ++ [("Error generating response: " ++ exn_str e)%string])%list).
Proof.
  split.
  - intros llm prompt w.
    destruct (backend w (chats w) (request_of llm prompt)) as [text|e] eqn:H.
    + rewrite (llamachat_generate_response_ok _ _ _ _ H),
        (philosopher_generate_response_ok _ _ _ _ H).
      split; eexists; reflexivity.
    + rewrite (llamachat_generate_response_err _ _ _ _ H),
        (philosopher_generate_response_err _ _ _ _ H).
      split; eexists; reflexivity.
  - intros llm prompt w e H.
    rewrite (llamachat_generate_response_err _ _ _ _ H),
      (philosopher_generate_response_err _ _ _ _ H).
    unfold after_failure. cbn [fst snd trace with_trace].
    rewrite log_entries_app. repeat split; reflexivity.
Qed.

Lemma generate_response_failure_is_caught_witness :
  fst (Llamachat.generate_response sample_model "Q"
         (fresh_world steady_clock failing_backend None None))
  = Ok (VTuple [VStr failure_message; VInt 0; VInt 0; VInt 0]%list).
Proof.
  apply (proj2 generate_response_failure_is_caught sample_model "Q"
           (fresh_world steady_clock failing_backend None None)
           (BackendError "connection refused")).
  reflexivity.
Defined.

(** Without an exception from outside [Exception], the reading of
    [generate_response] that can carry one is the one above. *)
Lemma interruptible_generate_response_agrees llm prompt w :
  Interruptible.llamachat_generate_response None llm prompt w
  = Interruptible.lift (Llamachat.generate_response llm prompt) w /\
  Interruptible.philosopher_generate_response None llm prompt w
  = Interruptible.lift (Philosopher.generate_response llm prompt) w.
Proof.
  unfold Interruptible.llamachat_generate_response,
    Interruptible.philosopher_generate_response,
    Llamachat.generate_response, Philosopher.generate_response,
    Interruptible.try_except_Exception, Interruptible.bind_any,
    Interruptible.get_response_under, Interruptible.ollama_chat_under,
    Interruptible.lift, Interruptible.ret_any.
  run_monad.
  destruct (backend w (chats w)
              (mkRequest (model_name llm) prompt (temperature llm)
                         (max_tokens llm))); split; reflexivity.
Qed.

(** An exception that is not derived from [Exception] and is raised during
    the backend call leaves [generate_response] as it came: nothing is
    logged, no message is shown and no value is returned. *)
Lemma base_exception_passes_through b llm prompt w :
  fst (Interruptible.llamachat_generate_response (Some b) llm prompt w)
  = Interruptible.Propagates (BaseOnly b) /\
  log_entries
    (trace (snd (Interruptible.llamachat_generate_response (Some b) llm prompt w)))
  = log_entries (trace w) /\
  fst (Interruptible.philosopher_generate_response (Some b) llm prompt w)
  = Interruptible.Propagates (BaseOnly b) /\
  log_entries
    (trace (snd (Interruptible.philosopher_generate_response (Some b) llm prompt w)))
  = log_entries (trace w).
Proof.
  unfold Interruptible.llamachat_generate_response,
    Interruptible.philosopher_generate_response,
    Interruptible.try_except_Exception, Interruptible.bind_any,
    Interruptible.get_response_under, Interruptible.ollama_chat_under,
    Interruptible.lift, Interruptible.ret_any.
  run_monad. rewrite !log_entries_app. cbn [log_entries].
  rewrite !app_nil_r. repeat split.
Qed.

(** C1 as stated fails: [except Exception] does not match
    [KeyboardInterrupt].  Raised while the backend is being called, it
    escapes from [generate_response] of either script to the caller; no
    degraded result is returned and nothing is logged. *)
Lemma generate_response_lets_keyboard_interrupt_escape :
  fst (Interruptible.llamachat_generate_response (Some KeyboardInterrupt)
         sample_model "Q" (fresh_world steady_clock answering_backend None None))
  = Interruptible.Propagates (BaseOnly KeyboardInterrupt) /\
  log_entries
    (trace (snd (Interruptible.llamachat_generate_response
                   (Some KeyboardInterrupt) sample_model "Q"
                   (fresh_world steady_clock answering_backend None None))))
  = []%list /\
  fst (Interruptible.philosopher_generate_response (Some KeyboardInterrupt)
         sample_model "Q" (fresh_world steady_clock answering_backend None None))
  = Interruptible.Propagates (BaseOnly KeyboardInterrupt) /\
  log_entries
    (trace (snd (Interruptible.philosopher_generate_response
                   (Some KeyboardInterrupt) sample_model "Q"
                   (fresh_world steady_clock answering_backend None None))))
  = []%list.
Proof. repeat split. Qed.

(** C8 as stated fails: [time.time()] is the wall clock, and when it is set
    back during the call the recorded duration of a successful call is
    negative. *)
Lemma elapsed_can_be_negative :
  fst (Llamachat.generate_response sample_model "Q"
         (fresh_world stepped_back_clock answering_backend None None))
  = Ok (VDict [("Response", VStr "An answer."); ("Input", VStr "Q");
               ("Time", VFloat (Qminus (inject_Z 5) (inject_Z 10)))]%list) /\
  Qlt (Qminus (inject_Z 5) (inject_Z 10)) (inject_Z 0).
Proof. split; reflexivity. Qed.

(** C8, as amended.  For a successful call the time field is the difference
    of the two clock readings taken immediately before and immediately after
    the backend call, with nothing else in between; it is non-negative
    whenever the second reading is not below the first. *)
Theorem generate_response_elapsed :
  forall (llm : LlamaModel) (prompt : string) (w : world) (text : string),
    backend w (chats w) (request_of llm prompt) = Returns text ->
    let start_time := clock w (ticks w) in
    let end_time := clock w (S (ticks w)) in
    fst (Llamachat.generate_response llm prompt w)
    = Ok (VDict [("Response", VStr text); ("Input", VStr prompt);
                 ("Time", VFloat (Qminus end_time start_time))]%list) /\
    fst (Philosopher.generate_response llm prompt w)
    = Ok (VDict [("response", VStr text); ("input", VStr prompt);
                 ("time", VFloat (Qminus end_time start_time))]%list) /\
    trace (snd (Llamachat.generate_response llm prompt w))
    = (trace w ++ [EvTime start_time; EvChat (request_of llm prompt);
                   EvTime end_time])%list /\
    trace (snd (Philosopher.generate_response llm prompt w))
    = (trace w ++ [EvTime start_time; EvChat (request_of llm prompt);
                   EvTime end_time])%list /\
    (Qle start_time end_time -> Qle (inject_Z 0) (Qminus end_time start_time)).
Proof.
  intros llm prompt w text H start_time end_time.
  rewrite (llamachat_generate_response_ok _ _ _ _ H),
    (philosopher_generate_response_ok _ _ _ _ H).
  repeat split.
  intros Hle. unfold Qminus.
  setoid_replace (inject_Z 0) with (start_time + - start_time)%Q
    by (symmetry; apply Qplus_opp_r).
  apply Qplus_le_compat; [exact Hle|apply Qle_refl].
Qed.

Lemma generate_response_elapsed_witness :
  fst (Llamachat.generate_response sample_model "Q"
         (fresh_world steady_clock answering_backend None None))
  = Ok (VDict [("Response", VStr "An answer."); ("Input", VStr "Q");
               ("Time", VFloat (Qminus (steady_clock 1) (steady_clock 0)))]%list)
  /\ (Qle (steady_clock 0) (steady_clock 1) ->
      Qle (inject_Z 0) (Qminus (steady_clock 1) (steady_clock 0))).
Proof.
  pose proof (generate_response_elapsed sample_model "Q"
                (fresh_world steady_clock answering_backend None None)
                "An answer." eq_refl) as H.
  cbv zeta in H. destruct H as (H1 & _ & _ & _ & H5).
  split; [exact H1|exact H5].
Defined.

(** ** The two shapes of a result *)

Lemma for_each_raises {A} (f : A -> M unit) (x : A) (before after : list A) :
  (forall w, exists e, fst (f x w) = Raise e) ->
  forall w, exists e, fst (for_each f (before ++ x :: after)%list w) = Raise e.
Proof.
  intros Hx. induction before as [|y before IH]; intros w.
  - cbn [app for_each]. unfold bind.
    destruct (Hx w) as [e He]. destruct (f x w) as [[u|e'] w'] eqn:E.
    + cbn in He. discriminate.
    + exists e'. reflexivity.
  - cbn [app for_each]. unfold bind.
    destruct (f y w) as [[u|e'] w'].
    + apply IH.
    + exists e'. reflexivity.
Qed.

Lemma getitem_failure_result key w :
  getitem failure_result key w =
  (Raise (TypeError "tuple indices must be integers or slices, not str"), w).
Proof. reflexivity. Qed.

(** C10.  A successful call returns a dictionary from which the input, the
    response and the time can be read by key; a failed call returns the
    4-tuple of the message and three zeros, on which every lookup by key
    raises.  Hence the history display raises as soon as the history holds
    one failure result, wherever it sits. *)
Theorem failure_result_has_another_shape :
  (forall (llm : LlamaModel) (prompt : string) (w : world) (text : string),
      backend w (chats w) (request_of llm prompt) = Returns text ->
      exists entries,
        fst (Llamachat.generate_response llm prompt w) = Ok (VDict entries) /\
        dict_get entries "Input" = Some (VStr prompt) /\
        dict_get entries "Response" = Some (VStr text) /\
        dict_get entries "Time" = Some (VFloat (elapsed w))) /\
  (forall (llm : LlamaModel) (prompt : string) (w : world) (text : string),
      backend w (chats w) (request_of llm prompt) = Returns text ->
      exists entries,
        fst (Philosopher.generate_response llm prompt w) = Ok (VDict entries) /\
        dict_get entries "input" = Some (VStr prompt) /\
        dict_get entries "response" = Some (VStr text) /\
        dict_get entries "time" = Some (VFloat (elapsed w))) /\
  (forall (llm : LlamaModel) (prompt : string) (w : world) (e : pyexn),
      backend w (chats w) (request_of llm prompt) = Raises e ->
      fst (Llamachat.generate_response llm prompt w)
      = Ok (VTuple [VStr failure_message; VInt 0; VInt 0; VInt 0]%list) /\
      fst (Philosopher.generate_response llm prompt w)
      = Ok (VTuple [VStr failure_message; VInt 0; VInt 0; VInt 0]%list)) /\
  (forall (key : string) (w : world),
      fst (getitem (VTuple [VStr failure_message; VInt 0; VInt 0; VInt 0]%list)
                   key w)
      = Raise (TypeError "tuple indices must be integers or slices, not str")) /\
  (forall (older newer : list value) (w : world),
      exists e,
        fst (Llamachat.display_chat_history
               (with_chat_history
                  (Some (older ++ failure_result :: newer)%list) w))
        = Raise e).
Proof.
  split; [|split; [|split; [|split]]].
  - intros llm prompt w text H.
    rewrite (llamachat_generate_response_ok _ _ _ _ H).
    eexists. split; [reflexivity|]. repeat split.
  - intros llm prompt w text H.
    rewrite (philosopher_generate_response_ok _ _ _ _ H).
    eexists. split; [reflexivity|]. repeat split.
  - intros llm prompt w e H.
    rewrite (llamachat_generate_response_err _ _ _ _ H),
      (philosopher_generate_response_err _ _ _ _ H).
    split; reflexivity.
  - intros key w. reflexivity.
  - intros older newer w.
    unfold Llamachat.display_chat_history, get_chat_history, bind.
    cbn [chat_history with_chat_history].
    rewrite rev_app_distr. cbn [rev]. rewrite <- app_assoc. cbn [app].
    apply for_each_raises.
    intros w'. eexists. unfold Llamachat.display_entry, bind.
    rewrite getitem_failure_result. reflexivity.
Qed.

Lemma failure_result_has_another_shape_witness :
  fst (Llamachat.generate_response sample_model "Q"
         (fresh_world steady_clock failing_backend None None))
  = Ok (VTuple [VStr failure_message; VInt 0; VInt 0; VInt 0]%list) /\
  fst (Philosopher.generate_response sample_model "Q"
         (fresh_world steady_clock failing_backend None None))
  = Ok (VTuple [VStr failure_message; VInt 0; VInt 0; VInt 0]%list).
Proof.
  apply (proj1 (proj2 (proj2 failure_result_has_another_shape))
           sample_model "Q"
           (fresh_world steady_clock failing_backend None None)
           (BackendError "connection refused")).
  reflexivity.
Defined.

(** ** Frame lemmas: what rendering can change *)

Lemma world_eta w : with_trace (trace w ++ [])%list w = w.
Proof. destruct w. unfold with_trace. cbn. rewrite app_nil_r. reflexivity. Qed.

Lemma only_writes_pure {A} (m : M A) :
  (forall w, snd (m w) = w) -> only_writes m.
Proof.
  intros H w. exists []%list. rewrite H. cbn [map]. symmetry. apply world_eta.
Qed.

Lemma only_writes_bind {A B} (m : M A) (k : A -> M B) :
  only_writes m -> (forall a, only_writes (k a)) -> only_writes (bind m k).
Proof.
  intros Hm Hk w. unfold bind.
  destruct (Hm w) as [i1 H1]. destruct (m w) as [[a|e] w1]; cbn [snd] in H1.
  - destruct (Hk a w1) as [i2 H2]. exists (i1 ++ i2)%list.
    rewrite H2, H1. unfold with_trace. cbn.
    rewrite map_app, app_assoc. reflexivity.
  - exists i1. exact H1.
Qed.

Lemma only_writes_st_write item : only_writes (st_write item).
Proof. intros w. exists [item]%list. reflexivity. Qed.

Lemma only_writes_getitem v key : only_writes (getitem v key).
Proof.
  apply only_writes_pure. intros w.
  destruct v; try reflexivity. cbn [getitem].
  destruct (dict_get entries key); reflexivity.
Qed.

Lemma only_writes_py_len v : only_writes (py_len v).
Proof. apply only_writes_pure. intros w. destruct v; reflexivity. Qed.

Lemma only_writes_for_each {A} (f : A -> M unit) l :
  (forall x, only_writes (f x)) -> only_writes (for_each f l).
Proof.
  intros Hf. induction l as [|x l IH]; cbn [for_each].
  - apply only_writes_pure. reflexivity.
  - apply only_writes_bind; [apply Hf|intros _; exact IH].
Qed.

Lemma only_writes_get_chat_history : only_writes get_chat_history.
Proof.
  apply only_writes_pure. intros w. unfold get_chat_history.
  destruct (chat_history w); reflexivity.
Qed.

Ltac only_writes_steps :=
  repeat first
    [ apply only_writes_bind; [|intros ?]
    | apply only_writes_getitem
    | apply only_writes_py_len
    | apply only_writes_st_write ].

Lemma llamachat_display_only_writes : only_writes Llamachat.display_chat_history.
Proof.
  unfold Llamachat.display_chat_history.
  apply only_writes_bind; [apply only_writes_get_chat_history|].
  intros h. apply only_writes_for_each. intros entry.
  unfold Llamachat.display_entry. only_writes_steps.
Qed.

Lemma chat_prompts_writes items : chat_prompts (map EvWrite items) = []%list.
Proof. induction items; [reflexivity|exact IHitems]. Qed.

(** Rendering leaves the history and the list of prompts sent as they are. *)
Lemma only_writes_frame {A} (m : M A) w :
  only_writes m ->
  chat_history (snd (m w)) = chat_history w /\
  chat_prompts (trace (snd (m w))) = chat_prompts (trace w).
Proof.
  intros H. destruct (H w) as [items ->]. split; [reflexivity|].
  cbn [trace with_trace]. rewrite chat_prompts_app, chat_prompts_writes.
  apply app_nil_r.
Qed.

(** ** Runs of [main] *)

Lemma history_append_run r w h :
  chat_history w = Some h ->
  history_append r w = (Ok tt, with_chat_history (Some (h ++ [r])%list) w).
Proof.
  intros H. unfold history_append, get_chat_history, set_chat_history, bind.
  rewrite H. reflexivity.
Qed.

Lemma chat_prompts_after_success llm prompt w :
  chat_prompts (trace (after_success llm prompt w))
  = (chat_prompts (trace w) ++ [prompt])%list.
Proof.
  unfold after_success. cbn [trace with_trace]. rewrite chat_prompts_app.
  reflexivity.
Qed.

Lemma chat_prompts_after_failure llm prompt e w :
  chat_prompts (trace (after_failure llm prompt e w))
  = (chat_prompts (trace w) ++ [prompt])%list.
Proof.
  unfold after_failure. cbn [trace with_trace]. rewrite chat_prompts_app.
  reflexivity.
Qed.

(** The tail of [main] in [sl_llamachat.py]: the second call of
    [generate_response], the append and the display. *)
Lemma llamachat_answer llama q w base :
  chat_history w = Some base ->
  exists r,
    let w' :=
      snd (((result <- Llamachat.generate_response llama q ;;
             history_append result) ;;
            Llamachat.display_chat_history) w) in
    chat_history w' = Some (base ++ [r])%list /\
    chat_prompts (trace w') = (chat_prompts (trace w) ++ [q])%list /\
    match backend w (chats w) (request_of llama q) with
    | Returns text =>
        r = VDict [("Response", VStr text); ("Input", VStr q);
                   ("Time", VFloat (elapsed w))]%list
    | Raises _ => r = failure_result
    end.
Proof.
  intros Hh. unfold bind.
  destruct (backend w (chats w) (request_of llama q)) as [text|e] eqn:E;
    [ rewrite (llamachat_generate_response_ok _ _ _ _ E)
    | rewrite (llamachat_generate_response_err _ _ _ _ E) ];
    (erewrite history_append_run by exact Hh);
    eexists; cbv zeta;
    match goal with
    | |- context [Llamachat.display_chat_history ?w1] =>
        destruct (only_writes_frame Llamachat.display_chat_history w1
                    llamachat_display_only_writes) as [H1 H2];
        rewrite H1, H2
    end;
    (split; [reflexivity|]); (split; [|reflexivity]);
    cbn [trace with_chat_history];
    [apply chat_prompts_after_success|apply chat_prompts_after_failure].
Qed.

(** The first part of [main] in [sl_llamachat.py], up to the text input,
    when the question file is readable and no random question is drawn: it
    settles the history and leaves everything else but the cache alone. *)
Lemma llamachat_main_prelude ui w content q :
  files w "questions.txt" = Some content ->
  user_input_state w = Some q ->
  ui_random_question ui = None ->
  exists w0,
    Llamachat.main ui w =
    (let llama := get_llama_model (ui_model_name ui) (ui_temperature ui)
                                  (ui_max_tokens ui) in
     _ <- Llamachat.generate_response llama
            (Llamachat.build_prompt (Some (ui_selected_tone ui)) q) ;;
     (if truthy q then
        result <- Llamachat.generate_response llama q ;;
        history_append result
      else ret tt) ;;
     Llamachat.display_chat_history) w0 /\
    backend w0 = backend w /\ chats w0 = chats w /\ trace w0 = trace w /\
    chat_history w0
    = Some (if ui_clear_history ui then []%list else history_of w).
Proof.
  intros Hf Hq Hr. unfold Llamachat.main. rewrite Hr.
  destruct w as [clk bk fs tk ch tr qc hist inp].
  cbn [files user_input_state] in Hf, Hq. subst inp.
  unfold history_of. cbn [chat_history].
  unfold bind at 1 2 3 4 5 6.
  unfold when, set_chat_history, init_chat_history, load_questions,
    init_user_input, text_input, ret.
  destruct (ui_clear_history ui), hist as [h|];
    cbn [chat_history with_chat_history questions_cache files user_input_state
         clock backend ticks chats trace];
    destruct (cache_lookup qc "questions.txt") as [qs|];
    rewrite ?Hf;
    cbn [chat_history with_chat_history with_questions_cache questions_cache
         files user_input_state clock backend ticks chats trace];
    eexists; (split; [reflexivity|]); repeat split.
Qed.

(** A run of [main] in [sl_llamachat.py] with a non-empty question [q] in the
    box.  Two prompts are sent: the built prompt, whose result is dropped,
    and then the raw question, whose result is the record appended to the
    history. *)
Lemma llamachat_main_run ui w content q :
  files w "questions.txt" = Some content ->
  user_input_state w = Some q ->
  truthy q = true ->
  ui_random_question ui = None ->
  let llama := get_llama_model (ui_model_name ui) (ui_temperature ui)
                               (ui_max_tokens ui) in
  let prompt := Llamachat.build_prompt (Some (ui_selected_tone ui)) q in
  let base := if ui_clear_history ui then []%list else history_of w in
  exists r,
    chat_history (snd (Llamachat.main ui w)) = Some (base ++ [r])%list /\
    chat_prompts (trace (snd (Llamachat.main ui w)))
    = (chat_prompts (trace w) ++ [prompt; q])%list /\
    match backend w (S (chats w)) (request_of llama q) with
    | Returns text =>
        exists t, r = VDict [("Response", VStr text); ("Input", VStr q);
                             ("Time", VFloat t)]%list
    | Raises _ => r = failure_result
    end.
Proof.
  intros Hf Hq Ht Hr llama prompt base.
  destruct (llamachat_main_prelude ui w content q Hf Hq Hr)
    as (w0 & -> & Hb & Hc & Htr & Hh).
  cbv zeta. fold llama. fold prompt. fold base in Hh. rewrite Ht.
  assert (Hstep : exists v w1,
             Llamachat.generate_response llama prompt w0 = (Ok v, w1) /\
             backend w1 = backend w /\ chats w1 = S (chats w) /\
             chat_history w1 = Some base /\
             chat_prompts (trace w1) = (chat_prompts (trace w) ++ [prompt])%list).
  { destruct (backend w0 (chats w0) (request_of llama prompt)) as [t1|e1] eqn:E1;
      [ rewrite (llamachat_generate_response_ok _ _ _ _ E1)
      | rewrite (llamachat_generate_response_err _ _ _ _ E1) ];
      do 2 eexists; (split; [reflexivity|]);
      rewrite <- Hb, <- Hc, <- Htr; repeat split; try exact Hh;
      [apply chat_prompts_after_success|apply chat_prompts_after_failure]. }
  destruct Hstep as (v & w1 & Hgr & Hb1 & Hc1 & Hh1 & Hp1).
  destruct (llamachat_answer llama q w1 base Hh1) as (r & H1 & H2 & H3).
  cbv zeta in H1, H2. exists r.
  match goal with
  | |- context [bind ?m ?k w0] =>
      assert (E : bind m k w0 = k v w1)
        by (unfold bind at 1; rewrite Hgr; reflexivity);
      rewrite E
  end.
  rewrite H1, H2, Hp1, <- app_assoc. cbn [app]. repeat split.
  rewrite Hb1, Hc1 in H3.
  destruct (backend w (S (chats w)) (request_of llama q)); [eexists|]; exact H3.
Qed.

Lemma display_empty_history w :
  chat_history w = Some []%list ->
  Llamachat.display_chat_history w = (Ok tt, w) /\
  Philosopher.display_chat_history w = (Ok tt, w).
Proof.
  intros H.
  unfold Llamachat.display_chat_history, Philosopher.display_chat_history,
    get_chat_history, bind.
  rewrite H. split; reflexivity.
Qed.

Lemma generate_response_keeps_history llm prompt w :
  chat_history (snd (Llamachat.generate_response llm prompt w))
  = chat_history w /\
  chat_history (snd (Philosopher.generate_response llm prompt w))
  = chat_history w.
Proof.
  destruct (backend w (chats w) (request_of llm prompt)) as [text|e] eqn:E.
  - rewrite (llamachat_generate_response_ok _ _ _ _ E),
      (philosopher_generate_response_ok _ _ _ _ E). split; reflexivity.
  - rewrite (llamachat_generate_response_err _ _ _ _ E),
      (philosopher_generate_response_err _ _ _ _ E). split; reflexivity.
Qed.

Lemma generate_response_returns llm prompt w :
  exists v, Llamachat.generate_response llm prompt w
            = (Ok v, snd (Llamachat.generate_response llm prompt w)).
Proof.
  destruct (backend w (chats w) (request_of llm prompt)) as [text|e] eqn:E.
  - rewrite (llamachat_generate_response_ok _ _ _ _ E). eexists. reflexivity.
  - rewrite (llamachat_generate_response_err _ _ _ _ E). eexists. reflexivity.
Qed.

(** Pressing "Clear History" with an empty input box leaves an empty
    history in [sl_llamachat.py], whatever it held and whether or not the
    question file can be read. *)
Lemma llamachat_main_clear ui w :
  ui_clear_history ui = true ->
  ui_random_question ui = None ->
  (forall q, user_input_state w = Some q -> q = EmptyString) ->
  chat_history (snd (Llamachat.main ui w)) = Some []%list.
Proof.
  intros Hc Hr Hq. unfold Llamachat.main. rewrite Hc, Hr.
  destruct w as [clk bk fs tk ch tr qc hist inp].
  cbn [user_input_state] in Hq.
  unfold bind at 1 2 3 4 5 6.
  unfold when, set_chat_history, init_chat_history, load_questions,
    init_user_input, text_input, ret.
  cbn [chat_history with_chat_history questions_cache files user_input_state
       clock backend ticks chats trace fst snd].
  destruct (cache_lookup qc "questions.txt") as [qs|];
    [|destruct (fs "questions.txt") as [content|]; [|reflexivity]];
    cbn [chat_history with_chat_history with_questions_cache questions_cache
         files user_input_state clock backend ticks chats trace fst snd];
    (destruct inp as [q|];
     [ rewrite (Hq q eq_refl) | ]);
    cbn [chat_history with_chat_history with_questions_cache with_user_input
         questions_cache files user_input_state clock backend ticks chats
         trace fst snd truthy];
    unfold bind;
    match goal with
    | |- context [Llamachat.generate_response ?l ?p ?w1] =>
        destruct (generate_response_returns l p w1) as [v ->];
        pose proof (proj1 (generate_response_keeps_history l p w1)) as Hk;
        cbn [chat_history] in Hk;
        rewrite (proj1 (display_empty_history _ Hk)); exact Hk
    end.
Qed.

(** ** The history store *)

(** C6.  Appending [a] and then [b] to a history [h] leaves [h] followed by
    [a] and [b], in this order; assigning the empty list leaves nothing.  In
    a run of [sl_llamachat.py], "Clear History" with an empty input box ends
    with an empty history whatever it held before, and [config_panel] of
    [sl_llm_philosopher.py], which holds that button, returns with an empty
    history.  A run of [sl_llamachat.py] with a question keeps the earlier
    records, or none of them when "Clear History" was pressed, and adds one
    record after them. *)
Theorem history_store_order_and_clear :
  (forall (w : world) (h : list value) (a b : value),
      chat_history
        (snd ((history_append a ;; history_append b)
                (with_chat_history (Some h) w)))
      = Some (h ++ [a; b])%list) /\
  (forall w : world, chat_history (snd (set_chat_history [] w)) = Some []%list) /\
  (forall (ui : ui_input) (w : world),
      ui_clear_history ui = true ->
      ui_random_question ui = None ->
      (forall q, user_input_state w = Some q -> q = EmptyString) ->
      chat_history (snd (Llamachat.main ui w)) = Some []%list) /\
  (forall (ui : ui_input) (w : world),
      ui_clear_history ui = true ->
      chat_history (snd (Philosopher.config_panel ui w)) = Some []%list) /\
  (forall (ui : ui_input) (w : world) (content q : string),
      files w "questions.txt" = Some content ->
      user_input_state w = Some q ->
      truthy q = true ->
      ui_random_question ui = None ->
      exists r,
        chat_history (snd (Llamachat.main ui w))
        = Some ((if ui_clear_history ui then [] else history_of w) ++ [r])%list).
Proof.
  split; [|split; [|split; [|split]]].
  - intros w h a b.
    unfold bind, history_append, get_chat_history, set_chat_history, bind.
    cbn [chat_history with_chat_history snd].
    rewrite <- app_assoc. reflexivity.
  - intros w. reflexivity.
  - intros ui w Hc Hr Hq. apply llamachat_main_clear; assumption.
  - intros ui w Hc. unfold Philosopher.config_panel. rewrite Hc. reflexivity.
  - intros ui w content q Hf Hq Ht Hr.
    destruct (llamachat_main_run ui w content q Hf Hq Ht Hr) as (r & H & _).
    cbv zeta in H. exists r. exact H.
Qed.

Lemma history_store_order_and_clear_witness :
  chat_history
    (snd (Llamachat.main
            (mkUi "llama3.2" (1 # 2) 2000 "Analytical" true None)
            (with_chat_history (Some [failure_result; failure_result]%list)
               (fresh_world steady_clock answering_backend None None))))
  = Some []%list /\
  chat_history
    (snd (Philosopher.config_panel
            (mkUi "llama3.2" (1 # 2) 2000 "Analytical" true None)
            (with_chat_history (Some [failure_result; failure_result]%list)
               (fresh_world steady_clock answering_backend None None))))
  = Some []%list /\
  exists r,
    chat_history
      (snd (Llamachat.main sample_ui
              (with_chat_history (Some [failure_result]%list)
                 (fresh_world steady_clock answering_backend
                              (Some example_questions_txt)
                              (Some "What is time?")))))
    = Some ([failure_result] ++ [r])%list.
Proof.
  split; [|split].
  - apply (proj1 (proj2 (proj2 history_store_order_and_clear))
             (mkUi "llama3.2" (1 # 2) 2000 "Analytical" true None)
             (with_chat_history (Some [failure_result; failure_result]%list)
                (fresh_world steady_clock answering_backend None None))).
    + reflexivity.
    + reflexivity.
    + intros q H. discriminate H.
  - apply (proj1 (proj2 (proj2 (proj2 history_store_order_and_clear)))
             (mkUi "llama3.2" (1 # 2) 2000 "Analytical" true None)
             (with_chat_history (Some [failure_result; failure_result]%list)
                (fresh_world steady_clock answering_backend None None))).
    reflexivity.
  - apply (proj2 (proj2 (proj2 (proj2 history_store_order_and_clear)))
             sample_ui
             (with_chat_history (Some [failure_result]%list)
                (fresh_world steady_clock answering_backend
                             (Some example_questions_txt)
                             (Some "What is time?")))
             example_questions_txt "What is time?");
      reflexivity.
Defined.

(** ** What is sent to the backend *)

(** C5 fails on [sl_llamachat.py].  With the tone Analytical and the question
    typed into the box, [main] sends the built prompt first and drops its
    result, then sends the raw question; the record stored in the history is
    the answer to the raw question, which is not the built prompt. *)
Theorem llamachat_main_answers_raw_question :
  chat_prompts
    (trace (snd (Llamachat.main sample_ui
                   (fresh_world steady_clock answering_backend
                                (Some example_questions_txt)
                                (Some "What is time?")))))
  = [Llamachat.build_prompt (Some "Analytical") "What is time?";
     "What is time?"]%list /\
  chat_history
    (snd (Llamachat.main sample_ui
            (fresh_world steady_clock answering_backend
                         (Some example_questions_txt)
                         (Some "What is time?"))))
  = Some [VDict [("Response", VStr "An answer.");
                 ("Input", VStr "What is time?");
                 ("Time", VFloat (Qminus (steady_clock 3) (steady_clock 2)))]]%list /\
  Llamachat.build_prompt (Some "Analytical") "What is time?" <> "What is time?".
Proof.
  split; [reflexivity|]. split; [reflexivity|]. discriminate.
Qed.

(** ** Running [sl_llm_philosopher.py] *)

Lemma line_159_is_invalid :
  check_line (159, Philosopher.line_159) = Some (InvalidSyntax 159).
Proof. reflexivity. Qed.

(** C4 fails on every run.  [sl_llm_philosopher.py] does not compile: the
    tokenizer finds the unterminated string literal of line 67, so running
    the file ends with [SyntaxError] before any of its statements is
    executed, whatever they are, and the world is left as it was: no call of
    the backend, no record.  Repairing line 67 is not enough: whatever text
    replaces it, the file still does not compile, because lines 159 and 162
    use the keyword [class] as a variable. *)
Theorem philosopher_script_does_not_compile :
  (forall (body : M unit) (w : world),
      run_script Philosopher.source body w
      = NotCompiled (UnterminatedString 67) /\
      world_after w (run_script Philosopher.source body w) = w) /\
  (forall (line67 : string) (body : M unit) (w : world),
      exists fault,
        run_script [(67, line67); (159, Philosopher.line_159);
                    (162, Philosopher.line_162)] body w
        = NotCompiled fault).
Proof.
  split.
  - intros body w. split; reflexivity.
  - intros line67 body w. unfold run_script.
    cbn [syntax_error]. rewrite line_159_is_invalid.
    destruct (check_line (67, line67)) as [fault|]; eexists; reflexivity.
Qed.

(** * Further properties of the code *)

(** ** The model client and the recorder *)

Lemma chat_requests_app t1 t2 :
  chat_requests (t1 ++ t2)%list = (chat_requests t1 ++ chat_requests t2)%list.
Proof.
  induction t1 as [|ev t1 IH]; [reflexivity|].
  destruct ev; simpl; rewrite IH; reflexivity.
Qed.

Lemma shown_errors_app t1 t2 :
  shown_errors (t1 ++ t2)%list = (shown_errors t1 ++ shown_errors t2)%list.
Proof.
  induction t1 as [|ev t1 IH]; [reflexivity|].
  destruct ev; simpl; rewrite IH; reflexivity.
Qed.

Lemma written_app t1 t2 :
  written (t1 ++ t2)%list = (written t1 ++ written t2)%list.
Proof.
  induction t1 as [|ev t1 IH]; [reflexivity|].
  destruct ev; simpl; rewrite IH; reflexivity.
Qed.

(** X1.  Whatever the backend does, one call of [generate_response] sends
    exactly one request: a single message holding the prompt as given, with
    the model name, temperature and token limit of the model object.  A
    failure is not retried. *)
Theorem generate_response_sends_one_request :
  forall (llm : LlamaModel) (prompt : string) (w : world),
    chat_requests (trace (snd (Llamachat.generate_response llm prompt w)))
    = (chat_requests (trace w)
       ++ [mkRequest (model_name llm) prompt (temperature llm) (max_tokens llm)])%list /\
    chats (snd (Llamachat.generate_response llm prompt w)) = S (chats w) /\
    chat_requests (trace (snd (Philosopher.generate_response llm prompt w)))
    = (chat_requests (trace w)
       ++ [mkRequest (model_name llm) prompt (temperature llm) (max_tokens llm)])%list /\
    chats (snd (Philosopher.generate_response llm prompt w)) = S (chats w).
Proof.
  intros llm prompt w.
  destruct (backend w (chats w) (request_of llm prompt)) as [text|e] eqn:H.
  - rewrite (llamachat_generate_response_ok _ _ _ _ H),
      (philosopher_generate_response_ok _ _ _ _ H).
    unfold after_success. cbn [snd trace chats with_trace with_chats with_ticks].
    rewrite chat_requests_app. repeat split.
  - rewrite (llamachat_generate_response_err _ _ _ _ H),
      (philosopher_generate_response_err _ _ _ _ H).
    unfold after_failure. cbn [snd trace chats with_trace with_chats with_ticks].
    rewrite chat_requests_app. repeat split.
Qed.

(** X2.  The fixed message is shown through [st.error] exactly when the
    backend call raised: once on a failure, and on a success neither a message
    nor a log entry is added. *)
Theorem generate_response_reports_only_failures :
  forall (llm : LlamaModel) (prompt : string) (w : world),
    (forall e,
        backend w (chats w) (request_of llm prompt) = Raises e ->
        shown_errors (trace (snd (Llamachat.generate_response llm prompt w)))
        = (shown_errors (trace w) ++ [failure_message])%list /\
        shown_errors (trace (snd (Philosopher.generate_response llm prompt w)))
        = (shown_errors (trace w) ++ [failure_message])%list) /\
    (forall text,
        backend w (chats w) (request_of llm prompt) = Returns text ->
        shown_errors (trace (snd (Llamachat.generate_response llm prompt w)))
        = shown_errors (trace w) /\
        log_entries (trace (snd (Llamachat.generate_response llm prompt w)))
        = log_entries (trace w) /\
        shown_errors (trace (snd (Philosopher.generate_response llm prompt w)))
        = shown_errors (trace w) /\
        log_entries (trace (snd (Philosopher.generate_response llm prompt w)))
        = log_entries (trace w)).
Proof.
  intros llm prompt w. split.
  - intros e H.
    rewrite (llamachat_generate_response_err _ _ _ _ H),
      (philosopher_generate_response_err _ _ _ _ H).
    unfold after_failure. cbn [snd trace with_trace].
    rewrite shown_errors_app. split; reflexivity.
  - intros text H.
    rewrite (llamachat_generate_response_ok _ _ _ _ H),
      (philosopher_generate_response_ok _ _ _ _ H).
    unfold after_success. cbn [snd trace with_trace].
    rewrite shown_errors_app, log_entries_app. cbn.
    rewrite !app_nil_r. repeat split.
Qed.

Lemma generate_response_reports_only_failures_witness :
  shown_errors
    (trace (snd (Llamachat.generate_response sample_model "Q"
                   (fresh_world steady_clock failing_backend None None))))
  = [failure_message]%list /\
  log_entries
    (trace (snd (Llamachat.generate_response sample_model "Q"
                   (fresh_world steady_clock answering_backend None None))))
  = []%list.
Proof.
  split.
  - apply (proj1 (generate_response_reports_only_failures sample_model "Q"
                    (fresh_world steady_clock failing_backend None None))
                 (BackendError "connection refused") eq_refl).
  - apply (proj2 (generate_response_reports_only_failures sample_model "Q"
                    (fresh_world steady_clock answering_backend None None))
                 "An answer." eq_refl).
Defined.

(** ** The cached question list *)

Lemma cache_lookup_head path qs c :
  cache_lookup ((path, qs) :: c) path = Some qs.
Proof. cbn [cache_lookup]. rewrite String.eqb_refl. reflexivity. Qed.

(** X3.  The first successful [load_questions] of a path fixes its answer:
    every later call for that path returns the same list and leaves the world
    alone, even when the file has been rewritten or removed in the meantime.
    A call that fails on a missing file stores nothing. *)
Theorem load_questions_cache_is_sticky :
  (forall (w : world) (path content : string) (later : string -> option string),
      files w path = Some content ->
      cache_lookup (questions_cache w) path = None ->
      let w1 := with_files later (snd (load_questions path w)) in
      load_questions path w1 = (Ok (stripped_lines content), w1)) /\
  (forall (w : world) (path : string),
      files w path = None ->
      cache_lookup (questions_cache w) path = None ->
      load_questions path w = (Raise (FileNotFoundError path), w)).
Proof.
  split.
  - intros w path content later Hf Hc w1. subst w1.
    rewrite (load_questions_fresh w path content Hf Hc).
    unfold load_questions.
    cbn [snd questions_cache with_files with_questions_cache].
    rewrite cache_lookup_head. reflexivity.
  - intros w path Hf Hc. unfold load_questions. rewrite Hc, Hf. reflexivity.
Qed.

Lemma load_questions_cache_is_sticky_witness :
  let w1 :=
    with_files (fun _ => None)
      (snd (load_questions "questions.txt"
              (fresh_world steady_clock answering_backend
                           (Some example_questions_txt) None))) in
  load_questions "questions.txt" w1 = (Ok (stripped_lines example_questions_txt), w1).
Proof.
  apply (proj1 load_questions_cache_is_sticky
           (fresh_world steady_clock answering_backend
                        (Some example_questions_txt) None)
           "questions.txt" example_questions_txt (fun _ => None));
    reflexivity.
Defined.

(** ** The shape of the loaded questions *)

(** [lstrip] removes a blank prefix and leaves no whitespace in front. *)
Lemma lstrip_decompose s :
  exists pre,
    s = pre ++ lstrip s /\ is_blank pre = true /\
    starts_with_space (lstrip s) = false.
Proof.
  induction s as [|c s (pre & E & Hb & Hs)]; cbn [lstrip].
  - exists EmptyString. repeat split.
  - destruct (is_space c) eqn:Hc.
    + exists (String c pre). cbn [append is_blank]. rewrite <- E, Hc, Hb.
      repeat split. exact Hs.
    + exists EmptyString. cbn [append is_blank starts_with_space].
      rewrite Hc. repeat split.
Qed.

(** [rstrip] removes a blank suffix and leaves no whitespace at the end. *)
Lemma rstrip_decompose s :
  exists post,
    s = rstrip s ++ post /\ is_blank post = true /\
    ends_with_space (rstrip s) = false.
Proof.
  induction s as [|c s (post & E & Hb & Hs)]; cbn [rstrip].
  - exists EmptyString. repeat split.
  - destruct (rstrip s) as [|c' r] eqn:Hr.
    + cbn [append] in E. destruct (is_space c) eqn:Hc.
      * exists (String c post). cbn [append is_blank ends_with_space].
        rewrite Hc, Hb, E. repeat split.
      * exists post. cbn [append ends_with_space].
        rewrite Hc, E. repeat split. exact Hb.
    + exists post. split; [|split; [exact Hb|exact Hs]].
      rewrite E at 1. reflexivity.
Qed.

(** [rstrip] keeps a first character that is not whitespace. *)
Lemma rstrip_keeps_head s :
  starts_with_space s = false -> starts_with_space (rstrip s) = false.
Proof.
  destruct s as [|c s]; [reflexivity|]. cbn [starts_with_space rstrip].
  intros Hc. destruct (rstrip s); [rewrite Hc|]; cbn [starts_with_space];
    exact Hc.
Qed.

Lemma strip_decompose s :
  exists pre post,
    s = pre ++ strip s ++ post /\
    is_blank pre = true /\ is_blank post = true /\
    starts_with_space (strip s) = false /\ ends_with_space (strip s) = false.
Proof.
  destruct (lstrip_decompose s) as (pre & E1 & Hpre & Hhead).
  destruct (rstrip_decompose (lstrip s)) as (post & E2 & Hpost & Hlast).
  exists pre, post. unfold strip. rewrite <- E2.
  repeat split; try assumption. apply rstrip_keeps_head, Hhead.
Qed.

(** X4.  Every question [load_questions] returns on a first read has no
    whitespace at either end, and is what is left of one of the lines of the
    file when the whitespace before it and after it is taken away. *)
Theorem load_questions_returns_stripped_lines :
  forall (w : world) (path content : string),
    files w path = Some content ->
    cache_lookup (questions_cache w) path = None ->
    exists questions : list string,
      fst (load_questions path w) = Ok questions /\
      forall q, In q questions ->
                starts_with_space q = false /\
                ends_with_space q = false /\
                exists line pre post,
                  In line (file_lines content) /\
                  line = (pre ++ q ++ post)%string /\
                  is_blank pre = true /\ is_blank post = true.
Proof.
  intros w path content Hf Hc.
  rewrite (load_questions_fresh w path content Hf Hc). cbn [fst].
  eexists. split; [reflexivity|].
  intros q Hq. unfold stripped_lines in Hq.
  apply in_map_iff in Hq as [line [<- Hin]].
  apply filter_In in Hin as [Hin _].
  destruct (strip_decompose line) as (pre & post & E & Hpre & Hpost & Hh & Hl).
  split; [exact Hh|]. split; [exact Hl|].
  exists line, pre, post. repeat split; assumption.
Qed.

Lemma load_questions_returns_stripped_lines_witness :
  exists questions : list string,
    fst (load_questions "questions.txt"
           (fresh_world steady_clock answering_backend
                        (Some example_questions_txt) None))
    = Ok questions /\
    forall q, In q questions ->
              starts_with_space q = false /\
              ends_with_space q = false /\
              exists line pre post,
                In line (file_lines example_questions_txt) /\
                line = (pre ++ q ++ post)%string /\
                is_blank pre = true /\ is_blank post = true.
Proof.
  apply (load_questions_returns_stripped_lines
           (fresh_world steady_clock answering_backend
                        (Some example_questions_txt) None)
           "questions.txt" example_questions_txt); reflexivity.
Defined.

(** ** The history display *)

Lemma with_trace_twice t1 t2 w :
  with_trace t2 (with_trace t1 w) = with_trace t2 w.
Proof. reflexivity. Qed.

Lemma llamachat_display_entry_record x w :
  Llamachat.display_entry (llamachat_record x) w
  = (Ok tt, with_trace (trace w ++ map EvWrite (exchange_block x))%list w).
Proof.
  unfold Llamachat.display_entry, llamachat_record, bind, st_write, emit,
    getitem, py_len, ret.
  cbn [dict_get String.eqb Ascii.eqb Bool.eqb trace with_trace].
  unfold with_trace. cbn. rewrite <- !app_assoc. reflexivity.
Qed.

Lemma llamachat_for_each_records xs w :
  for_each Llamachat.display_entry (map llamachat_record xs) w
  = (Ok tt,
     with_trace (trace w ++ map EvWrite (flat_map exchange_block xs))%list w).
Proof.
  revert w. induction xs as [|x xs IH]; intros w.
  - cbn [map flat_map for_each ret]. unfold ret. rewrite world_eta. reflexivity.
  - cbn [map flat_map for_each]. unfold bind.
    rewrite llamachat_display_entry_record, IH.
    cbn [trace with_trace]. rewrite with_trace_twice.
    rewrite map_app, app_assoc. reflexivity.
Qed.

(** X5.  The history display of [sl_llamachat.py] renders a history of
    success records without raising, newest exchange first and five items per
    exchange; the number it labels as the word count is the number of
    characters of the response. *)
Theorem llamachat_display_newest_first :
  forall (xs : list exchange) (w : world),
    let w0 := with_chat_history (Some (map llamachat_record xs)) w in
    fst (Llamachat.display_chat_history w0) = Ok tt /\
    written (trace (snd (Llamachat.display_chat_history w0)))
    = (written (trace w) ++ flat_map exchange_block (rev xs))%list /\
    chat_history (snd (Llamachat.display_chat_history w0))
    = Some (map llamachat_record xs).
Proof.
  intros xs w w0. subst w0.
  unfold Llamachat.display_chat_history, get_chat_history, bind.
  cbn [chat_history with_chat_history].
  rewrite <- map_rev, llamachat_for_each_records.
  cbn [fst snd trace with_trace with_chat_history chat_history].
  split; [reflexivity|]. split; [|reflexivity].
  rewrite written_app. f_equal.
  induction (flat_map exchange_block (rev xs)) as [|i l IH];
    [reflexivity|cbn; rewrite IH; reflexivity].
Qed.

(** X6.  The history display of [sl_llm_philosopher.py] reads the key
    [Input], which no record of that script has: as soon as the newest entry
    is a record appended by its [main], the display raises [KeyError] and
    writes nothing. *)
Theorem philosopher_display_raises_key_error :
  forall (older : list value) (x : exchange) (cls : string) (w : world),
    let w0 :=
      with_chat_history (Some (older ++ [philosopher_record x cls])%list) w in
    Philosopher.display_chat_history w0 = (Raise (KeyError "Input"), w0).
Proof.
  intros older x cls w w0. subst w0.
  unfold Philosopher.display_chat_history, get_chat_history, bind.
  cbn [chat_history with_chat_history].
  rewrite rev_app_distr. cbn [rev app for_each].
  unfold bind, Philosopher.display_entry, bind. reflexivity.
Qed.

(** ** Runs of [main] in [sl_llamachat.py] *)

(** The part of [main] in [sl_llamachat.py] after the text input, for a
    non-empty question [q], from a world whose history is [base]. *)
Lemma llamachat_tail_run llama prompt q w0 base :
  chat_history w0 = Some base ->
  let tail :=
    (_ <- Llamachat.generate_response llama prompt ;;
     (result <- Llamachat.generate_response llama q ;;
      history_append result) ;;
     Llamachat.display_chat_history) in
  exists r,
    chat_history (snd (tail w0)) = Some (base ++ [r])%list /\
    chat_prompts (trace (snd (tail w0)))
    = (chat_prompts (trace w0) ++ [prompt; q])%list /\
    match backend w0 (S (chats w0)) (request_of llama q) with
    | Returns text =>
        exists t, r = llamachat_record (mkExchange q text t)
    | Raises _ => r = failure_result
    end.
Proof.
  intros Hh tail. subst tail.
  assert (Hstep : exists v w1,
             Llamachat.generate_response llama prompt w0 = (Ok v, w1) /\
             backend w1 = backend w0 /\ chats w1 = S (chats w0) /\
             chat_history w1 = Some base /\
             chat_prompts (trace w1) = (chat_prompts (trace w0) ++ [prompt])%list).
  { destruct (backend w0 (chats w0) (request_of llama prompt)) as [t1|e1] eqn:E1;
      [ rewrite (llamachat_generate_response_ok _ _ _ _ E1)
      | rewrite (llamachat_generate_response_err _ _ _ _ E1) ];
      do 2 eexists; (split; [reflexivity|]); repeat split; try exact Hh;
      [apply chat_prompts_after_success|apply chat_prompts_after_failure]. }
  destruct Hstep as (v & w1 & Hgr & Hb1 & Hc1 & Hh1 & Hp1).
  destruct (llamachat_answer llama q w1 base Hh1) as (r & H1 & H2 & H3).
  cbv zeta in H1, H2. exists r.
  match goal with
  | |- context [bind ?m ?k w0] =>
      assert (E : bind m k w0 = k v w1)
        by (unfold bind at 1; rewrite Hgr; reflexivity);
      rewrite E
  end.
  rewrite H1, H2, Hp1, <- app_assoc. cbn [app]. repeat split.
  rewrite Hb1, Hc1 in H3.
  destruct (backend w0 (S (chats w0)) (request_of llama q));
    [eexists; exact H3|exact H3].
Qed.

(** X8.  A run of [sl_llamachat.py] with a readable [questions.txt], no
    press on "Get Random Question" and a non-empty question [q] in the box
    sends exactly two prompts, first the prompt built from the tone and [q],
    then [q] itself, and appends exactly one record after the records kept:
    the result of the second call, whose input is [q], or the failure tuple
    when that call raised.  The result of the first call is used nowhere. *)
Theorem llamachat_main_submission :
  forall (ui : ui_input) (w : world) (content q : string),
    files w "questions.txt" = Some content ->
    user_input_state w = Some q ->
    truthy q = true ->
    ui_random_question ui = None ->
    let llama := get_llama_model (ui_model_name ui) (ui_temperature ui)
                                 (ui_max_tokens ui) in
    let prompt := Llamachat.build_prompt (Some (ui_selected_tone ui)) q in
    let base := if ui_clear_history ui then []%list else history_of w in
    exists r,
      chat_history (snd (Llamachat.main ui w)) = Some (base ++ [r])%list /\
      chat_prompts (trace (snd (Llamachat.main ui w)))
      = (chat_prompts (trace w) ++ [prompt; q])%list /\
      match backend w (S (chats w)) (request_of llama q) with
      | Returns text => exists t, r = llamachat_record (mkExchange q text t)
      | Raises _ => r = failure_result
      end.
Proof.
  intros ui w content q Hf Hq Ht Hr llama prompt base.
  destruct (llamachat_main_prelude ui w content q Hf Hq Hr)
    as (w0 & -> & Hb & Hc & Htr & Hh).
  cbv zeta. fold llama. fold prompt. fold base in Hh. rewrite Ht.
  destruct (llamachat_tail_run llama prompt q w0 base Hh) as (r & H1 & H2 & H3).
  cbv zeta in H1, H2. exists r.
  rewrite H1, H2, Htr. rewrite Hb, Hc in H3. repeat split. exact H3.
Qed.

Lemma llamachat_main_submission_witness :
  exists r,
    chat_history
      (snd (Llamachat.main sample_ui
              (fresh_world steady_clock answering_backend
                           (Some example_questions_txt) (Some "What is time?"))))
    = Some ([] ++ [r])%list /\
    chat_prompts
      (trace (snd (Llamachat.main sample_ui
                     (fresh_world steady_clock answering_backend
                                  (Some example_questions_txt)
                                  (Some "What is time?")))))
    = ([] ++ [Llamachat.build_prompt (Some "Analytical") "What is time?";
              "What is time?"])%list /\
    exists t, r = llamachat_record (mkExchange "What is time?" "An answer." t).
Proof.
  apply (llamachat_main_submission sample_ui
           (fresh_world steady_clock answering_backend
                        (Some example_questions_txt) (Some "What is time?"))
           example_questions_txt "What is time?");
    reflexivity.
Defined.

(** The text the input box returns: the session value, or the empty text
    when the key is absent. *)
Lemma llamachat_main_prelude_any ui w content :
  files w "questions.txt" = Some content ->
  ui_random_question ui = None ->
  let q := match user_input_state w with
           | Some s => s
           | None => EmptyString
           end in
  exists w0,
    Llamachat.main ui w =
    (let llama := get_llama_model (ui_model_name ui) (ui_temperature ui)
                                  (ui_max_tokens ui) in
     _ <- Llamachat.generate_response llama
            (Llamachat.build_prompt (Some (ui_selected_tone ui)) q) ;;
     (if truthy q then
        result <- Llamachat.generate_response llama q ;;
        history_append result
      else ret tt) ;;
     Llamachat.display_chat_history) w0 /\
    backend w0 = backend w /\ chats w0 = chats w /\ trace w0 = trace w /\
    chat_history w0
    = Some (if ui_clear_history ui then []%list else history_of w).
Proof.
  intros Hf Hr q. subst q. unfold Llamachat.main. rewrite Hr.
  destruct w as [clk bk fs tk ch tr qc hist inp].
  cbn [files user_input_state] in Hf |- *.
  unfold history_of. cbn [chat_history].
  unfold bind at 1 2 3 4 5 6.
  unfold when, set_chat_history, init_chat_history, load_questions,
    init_user_input, text_input, ret.
  destruct (ui_clear_history ui), hist as [h|], inp as [q|];
    cbn [chat_history with_chat_history questions_cache files user_input_state
         clock backend ticks chats trace];
    destruct (cache_lookup qc "questions.txt") as [qs|];
    rewrite ?Hf;
    cbn [chat_history with_chat_history with_questions_cache with_user_input
         questions_cache files user_input_state clock backend ticks chats
         trace];
    eexists; (split; [reflexivity|]); repeat split.
Qed.

(** X9.  A run of [sl_llamachat.py] with a readable [questions.txt], no
    press on "Get Random Question" and an empty input box still calls the
    backend: the prompt built from the tone and the empty question is sent
    once, its result is dropped, and the history is left as it was (or
    emptied, when "Clear History" was pressed). *)
Theorem llamachat_main_idle_run_calls_backend :
  forall (ui : ui_input) (w : world) (content : string),
    files w "questions.txt" = Some content ->
    ui_random_question ui = None ->
    (forall q, user_input_state w = Some q -> q = EmptyString) ->
    chat_prompts (trace (snd (Llamachat.main ui w)))
    = (chat_prompts (trace w)
       ++ [Llamachat.build_prompt (Some (ui_selected_tone ui)) EmptyString])%list /\
    chat_history (snd (Llamachat.main ui w))
    = Some (if ui_clear_history ui then []%list else history_of w).
Proof.
  intros ui w content Hf Hr Hq.
  destruct (llamachat_main_prelude_any ui w content Hf Hr)
    as (w0 & -> & Hb & Hc & Htr & Hh).
  assert (E : match user_input_state w with
              | Some s => s
              | None => EmptyString
              end = EmptyString).
  { destruct (user_input_state w) as [q|]; [apply Hq|]; reflexivity. }
  cbv zeta. rewrite E. cbn [truthy].
  set (llama := get_llama_model _ _ _).
  set (prompt := Llamachat.build_prompt _ _).
  set (base := if ui_clear_history ui then []%list else history_of w) in *.
  assert (Hstep : exists v w1,
             Llamachat.generate_response llama prompt w0 = (Ok v, w1) /\
             chat_history w1 = Some base /\
             chat_prompts (trace w1) = (chat_prompts (trace w0) ++ [prompt])%list).
  { destruct (backend w0 (chats w0) (request_of llama prompt)) as [t1|e1] eqn:E1;
      [ rewrite (llamachat_generate_response_ok _ _ _ _ E1)
      | rewrite (llamachat_generate_response_err _ _ _ _ E1) ];
      do 2 eexists; (split; [reflexivity|]); (split; [exact Hh|]);
      [apply chat_prompts_after_success|apply chat_prompts_after_failure]. }
  destruct Hstep as (v & w1 & Hgr & Hh1 & Hp1).
  unfold bind, ret. rewrite Hgr.
  destruct (only_writes_frame Llamachat.display_chat_history w1
              llamachat_display_only_writes) as [F1 F2].
  rewrite F1, F2, Hp1, Htr. split; [reflexivity|exact Hh1].
Qed.

Lemma llamachat_main_idle_run_calls_backend_witness :
  chat_prompts
    (trace (snd (Llamachat.main sample_ui
                   (fresh_world steady_clock answering_backend
                                (Some example_questions_txt) None))))
  = ([] ++ [Llamachat.build_prompt (Some "Analytical") EmptyString])%list.
Proof.
  apply (llamachat_main_idle_run_calls_backend sample_ui
           (fresh_world steady_clock answering_backend
                        (Some example_questions_txt) None)
           example_questions_txt).
  - reflexivity.
  - reflexivity.
  - intros q H. discriminate H.
Defined.

(** ** The question file in [main] *)



(** What [load_questions] reads and what it leaves alone. *)
Lemma load_questions_empty_run path w :
  fst (load_questions path w) = Ok []%list ->
  exists w',
    load_questions path w = (Ok []%list, w') /\
    trace w' = trace w /\ chat_history w' = chat_history w.
Proof.
  unfold load_questions.
  destruct (cache_lookup (questions_cache w) path) as [qs|].
  - cbn [fst]. intros H. injection H as ->. exists w. repeat split.
  - destruct (files w path) as [content|]; cbn [fst]; [|discriminate].
    intros H. injection H as ->. eexists. repeat split.
Qed.

Lemma load_questions_reads_cache_and_files path w w' :
  questions_cache w' = questions_cache w ->
  files w' = files w ->
  fst (load_questions path w') = fst (load_questions path w).
Proof.
  intros Hq Hf. unfold load_questions. rewrite Hq, Hf.
  destruct (cache_lookup (questions_cache w) path); [reflexivity|].
  destruct (files w path); reflexivity.
Qed.

(** X11.  In [sl_llamachat.py], "Get Random Question" raises [IndexError]
    whenever [load_questions] yields an empty list, be it read from a file
    without any question (an empty file, or blank lines only) or taken from
    the cache, and nothing is sent to the backend. *)
Theorem random_question_from_empty_list :
  forall (ui : ui_input) (w : world) (k : nat),
    ui_random_question ui = Some k ->
    fst (load_questions "questions.txt" w) = Ok []%list ->
    fst (Llamachat.main ui w)
    = Raise (IndexError "Cannot choose from an empty sequence") /\
    chat_requests (trace (snd (Llamachat.main ui w))) = chat_requests (trace w).
Proof.
  intros ui w k Hr Hl.
  unfold Llamachat.main. rewrite Hr.
  set (w0 := snd ((when (ui_clear_history ui) (set_chat_history []) ;;
                   init_chat_history) w)).
  assert (E0 : (when (ui_clear_history ui) (set_chat_history []) ;;
                init_chat_history) w = (Ok tt, w0)).
  { unfold w0, bind, when, set_chat_history, init_chat_history, ret.
    destruct (ui_clear_history ui); cbn [chat_history with_chat_history];
      [reflexivity|]. destruct (chat_history w); reflexivity. }
  assert (F0 : questions_cache w0 = questions_cache w /\ files w0 = files w /\
               trace w0 = trace w).
  { unfold w0, bind, when, set_chat_history, init_chat_history, ret.
    destruct (ui_clear_history ui); cbn [chat_history with_chat_history snd];
      [repeat split|]. destruct (chat_history w); repeat split. }
  destruct F0 as (Fq & Ff & Ft).
  rewrite <- (load_questions_reads_cache_and_files _ w w0 Fq Ff) in Hl.
  destruct (load_questions_empty_run _ _ Hl) as (w1 & E1 & T1 & _).
  unfold bind in E0 |- *.
  destruct (when (ui_clear_history ui) (set_chat_history []) w) as [[[]|e] wa];
    [|discriminate E0].
  rewrite E0, E1. cbn [random_choice raise fst snd].
  rewrite T1, Ft. split; reflexivity.
Qed.

Lemma random_question_from_empty_list_witness :
  fst (Llamachat.main (mkUi "llama3.2" (1 # 2) 2000 "Analytical" false (Some 7))
         (fresh_world steady_clock answering_backend (Some (nl ++ "  " ++ nl)%string)
                      None))
  = Raise (IndexError "Cannot choose from an empty sequence") /\
  fst (Llamachat.main (mkUi "llama3.2" (1 # 2) 2000 "Analytical" false (Some 7))
         (snd (Llamachat.main sample_ui
                 (fresh_world steady_clock answering_backend
                              (Some (nl ++ "  " ++ nl)%string) None))))
  = Raise (IndexError "Cannot choose from an empty sequence").
Proof.
  split.
  - apply (random_question_from_empty_list
             (mkUi "llama3.2" (1 # 2) 2000 "Analytical" false (Some 7))
             (fresh_world steady_clock answering_backend
                          (Some (nl ++ "  " ++ nl)%string) None)
             7); reflexivity.
  - apply (random_question_from_empty_list
             (mkUi "llama3.2" (1 # 2) 2000 "Analytical" false (Some 7))
             (snd (Llamachat.main sample_ui
                     (fresh_world steady_clock answering_backend
                                  (Some (nl ++ "  " ++ nl)%string) None)))
             7); reflexivity.
Defined.

Lemma stripped_lines_truthy content q :
  In q (stripped_lines content) -> truthy q = true.
Proof.
  unfold stripped_lines. intros H.
  apply in_map_iff in H as [line [<- Hin]].
  apply filter_In in Hin as [_ Ht]. exact Ht.
Qed.

Lemma nth_mod_in (k : nat) (l : list string) :
  l <> []%list -> In (nth (k mod List.length l) l EmptyString) l.
Proof.
  intros Hl. apply nth_In. apply Nat.mod_upper_bound.
  destruct l; [contradiction|discriminate].
Qed.

(** The first part of [main] in [sl_llamachat.py] when a random question is
    drawn from a list read for the first time. *)
Lemma llamachat_main_prelude_random ui w content k :
  files w "questions.txt" = Some content ->
  cache_lookup (questions_cache w) "questions.txt" = None ->
  stripped_lines content <> []%list ->
  ui_random_question ui = Some k ->
  let q := nth (k mod List.length (stripped_lines content))
               (stripped_lines content) EmptyString in
  exists w0,
    Llamachat.main ui w =
    (let llama := get_llama_model (ui_model_name ui) (ui_temperature ui)
                                  (ui_max_tokens ui) in
     _ <- Llamachat.generate_response llama
            (Llamachat.build_prompt (Some (ui_selected_tone ui)) q) ;;
     (if truthy q then
        result <- Llamachat.generate_response llama q ;;
        history_append result
      else ret tt) ;;
     Llamachat.display_chat_history) w0 /\
    backend w0 = backend w /\ chats w0 = chats w /\ trace w0 = trace w /\
    chat_history w0
    = Some (if ui_clear_history ui then []%list else history_of w).
Proof.
  intros Hf Hc Hne Hr q. subst q. unfold Llamachat.main. rewrite Hr.
  destruct w as [clk bk fs tk ch tr qc hist inp].
  cbn [files questions_cache] in Hf, Hc.
  unfold history_of. cbn [chat_history].
  unfold bind at 1 2 3 4 5 6 7.
  unfold when, set_chat_history, init_chat_history, load_questions,
    init_user_input, text_input, set_user_input, ret.
  destruct (stripped_lines content) as [|q0 qs] eqn:Eq; [contradiction|].
  destruct (ui_clear_history ui), hist as [h|];
    cbn [chat_history with_chat_history questions_cache files user_input_state
         clock backend ticks chats trace];
    rewrite ?Hc, ?Hf;
    cbn [chat_history with_chat_history with_questions_cache with_user_input
         questions_cache files user_input_state clock backend ticks chats
         trace];
    rewrite ?Eq; unfold random_choice, ret;
    cbn [chat_history with_chat_history with_questions_cache with_user_input
         questions_cache files user_input_state clock backend ticks chats
         trace];
    eexists; (split; [reflexivity|]); repeat split.
Qed.

(** X12.  "Get Random Question" in [sl_llamachat.py], on a question list
    read for the first time and not empty, puts one of the loaded questions
    into the box and submits it in the same run: the prompt built from it and
    then the question itself are sent, and one record is appended. *)
Theorem llamachat_random_question_is_submitted :
  forall (ui : ui_input) (w : world) (content : string) (k : nat),
    files w "questions.txt" = Some content ->
    cache_lookup (questions_cache w) "questions.txt" = None ->
    stripped_lines content <> []%list ->
    ui_random_question ui = Some k ->
    exists q r,
      In q (stripped_lines content) /\
      chat_prompts (trace (snd (Llamachat.main ui w)))
      = (chat_prompts (trace w)
         ++ [Llamachat.build_prompt (Some (ui_selected_tone ui)) q; q])%list /\
      chat_history (snd (Llamachat.main ui w))
      = Some ((if ui_clear_history ui then [] else history_of w) ++ [r])%list.
Proof.
  intros ui w content k Hf Hc Hne Hr.
  destruct (llamachat_main_prelude_random ui w content k Hf Hc Hne Hr)
    as (w0 & -> & Hb & Hch & Htr & Hh).
  cbv zeta.
  set (q := nth (k mod List.length (stripped_lines content))
                (stripped_lines content) EmptyString).
  assert (Hin : In q (stripped_lines content)) by (apply nth_mod_in; exact Hne).
  rewrite (stripped_lines_truthy content q Hin).
  destruct (llamachat_tail_run
              (get_llama_model (ui_model_name ui) (ui_temperature ui)
                               (ui_max_tokens ui))
              (Llamachat.build_prompt (Some (ui_selected_tone ui)) q) q w0 _ Hh)
    as (r & H1 & H2 & _).
  cbv zeta in H1, H2. exists q, r.
  rewrite H1, H2, Htr. repeat split. exact Hin.
Qed.

Lemma llamachat_random_question_is_submitted_witness :
  exists q r,
    In q (stripped_lines example_questions_txt) /\
    chat_prompts
      (trace (snd (Llamachat.main
                     (mkUi "llama3.2" (1 # 2) 2000 "Socratic" false (Some 4))
                     (fresh_world steady_clock answering_backend
                                  (Some example_questions_txt) None))))
    = ([] ++ [Llamachat.build_prompt (Some "Socratic") q; q])%list /\
    chat_history
      (snd (Llamachat.main
              (mkUi "llama3.2" (1 # 2) 2000 "Socratic" false (Some 4))
              (fresh_world steady_clock answering_backend
                           (Some example_questions_txt) None)))
    = Some ([] ++ [r])%list.
Proof.
  apply (llamachat_random_question_is_submitted
           (mkUi "llama3.2" (1 # 2) 2000 "Socratic" false (Some 4))
           (fresh_world steady_clock answering_backend
                        (Some example_questions_txt) None)
           example_questions_txt 4);
    try reflexivity.
  discriminate.
Defined.

(** ** The question file in [get_new_question] *)

(** X16.  [get_new_question] of [sl_llm_philosopher.py] tests for the
    question file before it loads it.  When no file of that name exists it
    neither loads nor draws, whether or not "Get Random Question" was
    pressed and whatever is cached: it returns the text of the input box and
    shows nothing.  When the file exists and [load_questions] yields an
    empty list, a press on "Get Random Question" raises [IndexError]. *)
Theorem philosopher_get_new_question_tests_for_the_file :
  (forall (ui : ui_input) (w : world),
      files w "questions.txt" = None ->
      fst (Philosopher.get_new_question ui w)
      = Ok (match user_input_state w with
            | Some s => s
            | None => EmptyString
            end) /\
      trace (snd (Philosopher.get_new_question ui w)) = trace w /\
      questions_cache (snd (Philosopher.get_new_question ui w))
      = questions_cache w) /\
  (forall (ui : ui_input) (w : world) (content : string) (k : nat),
      files w "questions.txt" = Some content ->
      ui_random_question ui = Some k ->
      fst (load_questions "questions.txt" w) = Ok []%list ->
      fst (Philosopher.get_new_question ui w)
      = Raise (IndexError "Cannot choose from an empty sequence")).
Proof.
  split.
  - intros ui w Hf. unfold Philosopher.get_new_question.
    unfold bind, os_path_exists, init_user_input, text_input, ret.
    rewrite Hf.
    destruct (user_input_state w) as [q|] eqn:Hq;
      cbn [user_input_state with_user_input trace questions_cache fst snd];
      rewrite ?Hq; repeat split.
  - intros ui w content k Hf Hr Hl. unfold Philosopher.get_new_question.
    rewrite Hr.
    destruct (load_questions_empty_run _ _ Hl) as (w1 & E1 & _).
    unfold bind, os_path_exists. rewrite Hf, E1. reflexivity.
Qed.

Lemma philosopher_get_new_question_tests_for_the_file_witness :
  fst (Philosopher.get_new_question
         (mkUi "llama3.2" (1 # 2) 2000 "Analytical" false (Some 7))
         (fresh_world steady_clock answering_backend None (Some "What is time?")))
  = Ok "What is time?" /\
  fst (Philosopher.get_new_question
         (mkUi "llama3.2" (1 # 2) 2000 "Analytical" false (Some 7))
         (fresh_world steady_clock answering_backend
                      (Some (nl ++ "  " ++ nl)%string) None))
  = Raise (IndexError "Cannot choose from an empty sequence").
Proof.
  split.
  - apply (proj1 philosopher_get_new_question_tests_for_the_file
             (mkUi "llama3.2" (1 # 2) 2000 "Analytical" false (Some 7))
             (fresh_world steady_clock answering_backend None
                          (Some "What is time?"))).
    reflexivity.
  - apply (proj2 philosopher_get_new_question_tests_for_the_file
             (mkUi "llama3.2" (1 # 2) 2000 "Analytical" false (Some 7))
             (fresh_world steady_clock answering_backend
                          (Some (nl ++ "  " ++ nl)%string) None)
             (nl ++ "  " ++ nl)%string 7); reflexivity.
Defined.

(** ** What a run keeps *)

Lemma preserves_bind {A B} (P : world -> Prop) (m : M A) (k : A -> M B) :
  preserves P m -> (forall a, preserves P (k a)) -> preserves P (bind m k).
Proof.
  intros Hm Hk w Hw. unfold bind.
  specialize (Hm w Hw). destruct (m w) as [[a|e] w1]; cbn [snd] in Hm.
  - apply Hk, Hm.
  - exact Hm.
Qed.

Lemma preserves_unchanged {A} (P : world -> Prop) (m : M A) :
  (forall w, snd (m w) = w) -> preserves P m.
Proof. intros H w Hw. rewrite H. exact Hw. Qed.

Lemma raises_from_bind {A B} (P : world -> Prop) (m : M A) (k : A -> M B) :
  preserves P m -> (forall a, raises_from P (k a)) -> raises_from P (bind m k).
Proof.
  intros Hm Hk w Hw. unfold bind.
  specialize (Hm w Hw). destruct (m w) as [[a|e] w1]; cbn [snd] in Hm.
  - apply Hk, Hm.
  - exists e. reflexivity.
Qed.

Lemma preserves_if {A} (P : world -> Prop) (b : bool) (m1 m2 : M A) :
  preserves P m1 -> preserves P m2 -> preserves P (if b then m1 else m2).
Proof. destruct b; auto. Qed.

(** *** A failure result stays in the history *)

Lemma keeps_failure_of_history_frame {A} (m : M A) :
  (forall w, chat_history (snd (m w)) = chat_history w) ->
  preserves history_has_failure m.
Proof.
  intros H w (older & newer & Hw). exists older, newer. rewrite H. exact Hw.
Qed.

Lemma keeps_failure_init_chat_history :
  preserves history_has_failure init_chat_history.
Proof.
  intros w (older & newer & Hw). unfold init_chat_history. rewrite Hw.
  exists older, newer. exact Hw.
Qed.

Lemma keeps_failure_load_questions path :
  preserves history_has_failure (load_questions path).
Proof.
  apply keeps_failure_of_history_frame. intros w. unfold load_questions.
  destruct (cache_lookup (questions_cache w) path); [reflexivity|].
  destruct (files w path); reflexivity.
Qed.

Lemma keeps_failure_random_choice k qs :
  preserves history_has_failure (random_choice k qs).
Proof. apply preserves_unchanged. intros w. destruct qs; reflexivity. Qed.

Lemma keeps_failure_set_user_input s :
  preserves history_has_failure (set_user_input s).
Proof. apply keeps_failure_of_history_frame. reflexivity. Qed.

Lemma keeps_failure_init_user_input :
  preserves history_has_failure init_user_input.
Proof.
  apply keeps_failure_of_history_frame. intros w. unfold init_user_input.
  destruct (user_input_state w); reflexivity.
Qed.

Lemma keeps_failure_text_input : preserves history_has_failure text_input.
Proof.
  apply keeps_failure_of_history_frame. intros w. unfold text_input.
  destruct (user_input_state w); reflexivity.
Qed.

Lemma keeps_failure_generate_response llm prompt :
  preserves history_has_failure (Llamachat.generate_response llm prompt).
Proof.
  apply keeps_failure_of_history_frame. intros w.
  apply (generate_response_keeps_history llm prompt w).
Qed.

Lemma keeps_failure_history_append r :
  preserves history_has_failure (history_append r).
Proof.
  intros w (older & newer & Hw).
  rewrite (history_append_run r w _ Hw). cbn [snd chat_history with_chat_history].
  exists older, (newer ++ [r])%list. rewrite <- app_assoc. reflexivity.
Qed.

Lemma llamachat_display_raises_on_failure :
  raises_from history_has_failure Llamachat.display_chat_history.
Proof.
  intros w (older & newer & Hw).
  unfold Llamachat.display_chat_history, get_chat_history, bind. rewrite Hw.
  rewrite rev_app_distr. cbn [rev]. rewrite <- app_assoc. cbn [app].
  apply for_each_raises.
  intros w'. eexists. unfold Llamachat.display_entry, bind.
  rewrite getitem_failure_result. reflexivity.
Qed.

(** X14.  In [sl_llamachat.py] a failure result poisons the session.  A
    submission whose answer call raises appends the failure tuple to the
    history, and from then on every run in which "Clear History" is not
    pressed ends with an exception, whatever else the user does. *)
Theorem llamachat_failure_poisons_session :
  (forall (ui : ui_input) (w : world) (content q : string) (e : pyexn),
      files w "questions.txt" = Some content ->
      user_input_state w = Some q ->
      truthy q = true ->
      ui_random_question ui = None ->
      backend w (S (chats w))
              (request_of (get_llama_model (ui_model_name ui)
                             (ui_temperature ui) (ui_max_tokens ui)) q)
      = Raises e ->
      history_has_failure (snd (Llamachat.main ui w))) /\
  (forall (ui : ui_input) (w : world),
      ui_clear_history ui = false ->
      history_has_failure w ->
      exists e, fst (Llamachat.main ui w) = Raise e).
Proof.
  split.
  - intros ui w content q e Hf Hq Ht Hr He.
    destruct (llamachat_main_run ui w content q Hf Hq Ht Hr)
      as (r & H1 & _ & H3).
    cbv zeta in H1, H3. rewrite He in H3. subst r.
    eexists _, []%list. exact H1.
  - intros ui w Hc. revert w. change (raises_from history_has_failure (Llamachat.main ui)).
    unfold Llamachat.main. rewrite Hc. cbn [when].
    apply raises_from_bind; [apply preserves_unchanged; reflexivity|intros _].
    apply raises_from_bind; [apply keeps_failure_init_chat_history|intros _].
    apply raises_from_bind; [apply keeps_failure_load_questions|intros questions].
    apply raises_from_bind.
    { destruct (ui_random_question ui) as [k|].
      - apply preserves_bind;
          [apply keeps_failure_random_choice
          |intros s; apply keeps_failure_set_user_input].
      - apply preserves_unchanged; reflexivity. }
    intros _.
    apply raises_from_bind; [apply keeps_failure_init_user_input|intros _].
    apply raises_from_bind; [apply keeps_failure_text_input|intros user_input].
    apply raises_from_bind; [apply keeps_failure_generate_response|intros _].
    apply raises_from_bind.
    { apply preserves_if.
      - apply preserves_bind;
          [apply keeps_failure_generate_response
          |intros r; apply keeps_failure_history_append].
      - apply preserves_unchanged; reflexivity. }
    intros _. apply llamachat_display_raises_on_failure.
Qed.

Lemma llamachat_failure_poisons_session_witness :
  exists e,
    fst (Llamachat.main sample_ui
           (snd (Llamachat.main sample_ui
                   (fresh_world steady_clock failing_backend
                                (Some example_questions_txt)
                                (Some "What is virtue?")))))
    = Raise e.
Proof.
  apply (proj2 llamachat_failure_poisons_session); [reflexivity|].
  apply (proj1 llamachat_failure_poisons_session sample_ui _
               example_questions_txt "What is virtue?"
               (BackendError "connection refused"));
    reflexivity.
Defined.

(** *** The question file and the input box stay as they are *)

Lemma keeps_session_of_frame {A} content q (m : M A) :
  (forall w, files (snd (m w)) = files w /\
             user_input_state (snd (m w)) = user_input_state w) ->
  preserves (session_with content q) m.
Proof.
  intros H w [Hf Hq]. destruct (H w) as [Ef Eq]. split; congruence.
Qed.

Lemma keeps_session_generate_response content q llm prompt :
  preserves (session_with content q) (Llamachat.generate_response llm prompt).
Proof.
  apply keeps_session_of_frame. intros w.
  destruct (backend w (chats w) (request_of llm prompt)) as [text|e] eqn:E.
  - rewrite (llamachat_generate_response_ok _ _ _ _ E). split; reflexivity.
  - rewrite (llamachat_generate_response_err _ _ _ _ E). split; reflexivity.
Qed.

Lemma keeps_session_history_append content q r :
  preserves (session_with content q) (history_append r).
Proof.
  apply keeps_session_of_frame. intros w.
  unfold history_append, get_chat_history, set_chat_history, bind.
  destruct (chat_history w); split; reflexivity.
Qed.

Lemma keeps_session_only_writes {A} content q (m : M A) :
  only_writes m -> preserves (session_with content q) m.
Proof.
  intros H. apply keeps_session_of_frame. intros w.
  destruct (H w) as [items ->]. split; reflexivity.
Qed.

Lemma llamachat_main_keeps_session ui content q :
  ui_random_question ui = None ->
  preserves (session_with content q) (Llamachat.main ui).
Proof.
  intros Hr. unfold Llamachat.main. rewrite Hr.
  apply preserves_bind.
  { apply keeps_session_of_frame. intros w.
    destruct (ui_clear_history ui); split; reflexivity. }
  intros _. apply preserves_bind.
  { apply keeps_session_of_frame. intros w. unfold init_chat_history.
    destruct (chat_history w); split; reflexivity. }
  intros _. apply preserves_bind.
  { apply keeps_session_of_frame. intros w. unfold load_questions.
    destruct (cache_lookup (questions_cache w) "questions.txt");
      [split; reflexivity|].
    destruct (files w "questions.txt"); split; reflexivity. }
  intros questions. apply preserves_bind;
    [apply preserves_unchanged; reflexivity|intros _].
  apply preserves_bind.
  { intros w [Hf Hq]. unfold init_user_input. rewrite Hq. split; assumption. }
  intros _. apply preserves_bind.
  { intros w [Hf Hq]. unfold text_input. rewrite Hq. split; assumption. }
  intros user_input. apply preserves_bind;
    [apply keeps_session_generate_response|intros _].
  apply preserves_bind.
  { apply preserves_if.
    - apply preserves_bind;
        [apply keeps_session_generate_response
        |intros r; apply keeps_session_history_append].
    - apply preserves_unchanged; reflexivity. }
  intros _. apply keeps_session_only_writes, llamachat_display_only_writes.
Qed.

(** X15.  In [sl_llamachat.py] the question in the input box is submitted
    again by every rerun of the script.  After a run with a non-empty
    question [q], a second run in which the user only touches the sidebar
    (any model settings and tone, "Clear History" not pressed) sends two
    further prompts to the backend, its own template prompt and [q], and
    appends a second result for the same question to the history. *)
Theorem llamachat_rerun_submits_again :
  forall (ui1 ui2 : ui_input) (w : world) (content q : string),
    files w "questions.txt" = Some content ->
    user_input_state w = Some q ->
    truthy q = true ->
    ui_random_question ui1 = None ->
    ui_random_question ui2 = None ->
    ui_clear_history ui2 = false ->
    let w1 := snd (Llamachat.main ui1 w) in
    let w2 := snd (Llamachat.main ui2 w1) in
    let base := if ui_clear_history ui1 then []%list else history_of w in
    exists r1 r2,
      chat_history w1 = Some (base ++ [r1])%list /\
      chat_history w2 = Some (base ++ [r1; r2])%list /\
      chat_prompts (trace w2)
      = (chat_prompts (trace w)
         ++ [Llamachat.build_prompt (Some (ui_selected_tone ui1)) q; q;
             Llamachat.build_prompt (Some (ui_selected_tone ui2)) q; q])%list.
Proof.
  intros ui1 ui2 w content q Hf Hq Ht Hr1 Hr2 Hc2 w1 w2 base.
  destruct (llamachat_main_run ui1 w content q Hf Hq Ht Hr1)
    as (r1 & H1 & P1 & _).
  cbv zeta in H1, P1. fold w1 in H1, P1.
  destruct (llamachat_main_keeps_session ui1 content q Hr1 w (conj Hf Hq))
    as [Hf1 Hq1].
  fold w1 in Hf1, Hq1.
  destruct (llamachat_main_run ui2 w1 content q Hf1 Hq1 Ht Hr2)
    as (r2 & H2 & P2 & _).
  cbv zeta in H2, P2. fold w2 in H2, P2. rewrite Hc2 in H2.
  exists r1, r2. split; [exact H1|]. split.
  - rewrite H2. unfold history_of. rewrite H1. fold base.
    rewrite <- app_assoc. reflexivity.
  - rewrite P2, P1. rewrite <- app_assoc. reflexivity.
Qed.

Lemma llamachat_rerun_submits_again_witness :
  exists r1 r2,
    chat_history
      (snd (Llamachat.main sample_ui
              (snd (Llamachat.main sample_ui
                      (fresh_world steady_clock answering_backend
                                   (Some example_questions_txt)
                                   (Some "What is virtue?"))))))
    = Some [r1; r2]%list.
Proof.
  destruct (llamachat_rerun_submits_again sample_ui sample_ui
              (fresh_world steady_clock answering_backend
                           (Some example_questions_txt)
                           (Some "What is virtue?"))
              example_questions_txt "What is virtue?"
              eq_refl eq_refl eq_refl eq_refl eq_refl eq_refl)
    as (r1 & r2 & _ & H & _).
  exists r1, r2. exact H.
Defined.
